(** * NOAA Tides and Currents sensor

    A shallow embedding of
    [homeassistant/components/noaa_tides/sensor.py]: the sensor object
    [NOAATidesAndCurrentsSensor], its two read accessors
    ([native_value], [extra_state_attributes]) and its [update] method.

    Python values that reach the sensor from the decoded JSON body are
    kept dynamically typed ([pyval]); exceptions are values of [exn]
    carried by the [result] monad; the network, the clock and the
    [dateutil] parser are collaborators gathered in a [world]. *)

From Stdlib Require Import PrimFloat Ascii.
From Stdlib Require String.
From stdpp Require Import base option list strings gmap.

Local Open Scope string_scope.
Local Open Scope nat_scope.

(** ** Python values *)

(** What [json.loads] can produce, which is also what the attribute
    dictionary (typed [dict[str, Any]]) can hold.  A JSON object is a
    [dict]; it is kept as an association list read by first match. *)
#[local] Set Warnings "-register-all".
Inductive pyval : Type :=
| PyNone
| PyBool (b : bool)
| PyInt (z : Z)
| PyFloat (f : float)
| PyStr (s : string)
| PyList (l : list pyval)
| PyDict (d : list (string * pyval)).
#[local] Set Warnings "register-all".

(** The type test [isinstance(v, float)]. *)
Definition is_float (v : pyval) : bool :=
  match v with PyFloat _ => true | _ => false end.

(** [v == "..."] with a string literal on the right: only a [str] can be
    equal to a [str]. *)
Definition py_eq_str (v : pyval) (s : string) : bool :=
  match v with
  | PyStr s' => String.eqb s' s
  | _ => false
  end.

(** ** Exceptions *)

(** The exception classes the module can meet: the builtins raised by
    subscripting and iteration, the [requests] hierarchy, and the two
    [ValueError] subclasses raised by JSON decoding and by [dateutil]. *)
Inductive exn_class : Type :=
| ValueError
| KeyError
| IndexError
| TypeError
| OverflowError
| JSONDecodeError        (* json.JSONDecodeError(ValueError) *)
| ParserError            (* dateutil.parser.ParserError(ValueError) *)
| RequestException       (* requests.exceptions.RequestException(IOError) *)
| ConnectionError        (* requests.exceptions.ConnectionError *)
| Timeout                (* requests.exceptions.Timeout *)
| HTTPError              (* requests.exceptions.HTTPError *)
| RequestsJSONDecodeError.
    (* requests.exceptions.JSONDecodeError(InvalidJSONError, json.JSONDecodeError) *)

Record exn : Type := Exn { exn_cls : exn_class; exn_args : list pyval }.

(** [isinstance(err, ValueError)] *)
Definition is_ValueError (c : exn_class) : bool :=
  match c with
  | ValueError | JSONDecodeError | ParserError | RequestsJSONDecodeError => true
  | _ => false
  end.

(** [isinstance(err, requests.exceptions.RequestException)] *)
Definition is_RequestException (c : exn_class) : bool :=
  match c with
  | RequestException | ConnectionError | Timeout | HTTPError
  | RequestsJSONDecodeError => true
  | _ => false
  end.

(** ** Computations that return or raise *)

Inductive result (A : Type) : Type :=
| Ok (a : A)
| Raise (e : exn).
Arguments Ok {A} a.
Arguments Raise {A} e.

Definition rbind {A B : Type} (m : result A) (k : A -> result B) : result B :=
  match m with
  | Ok a => k a
  | Raise e => Raise e
  end.

Declare Scope result_scope.
Delimit Scope result_scope with result.
Notation "x <~ m ;; k" := (rbind m (fun x => k))
  (at level 100, m at next level, right associativity) : result_scope.
Local Open Scope result_scope.

Definition raises {A : Type} (m : result A) : bool :=
  match m with Ok _ => false | Raise _ => true end.

(** A list comprehension whose element expression may raise: elements
    are evaluated left to right and the first exception aborts it. *)
Fixpoint comprehension {A B : Type} (f : A -> result B) (l : list A)
  : result (list B) :=
  match l with
  | [] => Ok []
  | x :: xs =>
      y <~ f x ;;
      ys <~ comprehension f xs ;;
      Ok (y :: ys)
  end.

(** ** Subscripting and iteration *)

Fixpoint assoc (k : string) (d : list (string * pyval)) : option pyval :=
  match d with
  | [] => None
  | (k', v) :: d' => if String.eqb k' k then Some v else assoc k d'
  end.

(** [v[key]] with a string key.  A [dict] answers or raises [KeyError];
    every other JSON value raises [TypeError] (a list or string wants an
    integer index, the rest are not subscriptable). *)
Definition py_getitem (v : pyval) (key : string) : result pyval :=
  match v with
  | PyDict d =>
      match assoc key d with
      | Some x => Ok x
      | None => Raise (Exn KeyError [PyStr key])
      end
  | _ => Raise (Exn TypeError [])
  end.

Fixpoint chars (s : string) : list pyval :=
  match s with
  | EmptyString => []
  | String c s' => PyStr (String c EmptyString) :: chars s'
  end.

(** [for x in v]: a list yields its items, a dict its keys, a string its
    characters; the scalars are not iterable. *)
Definition py_iter (v : pyval) : result (list pyval) :=
  match v with
  | PyList l => Ok l
  | PyDict d => Ok (map (fun kv => PyStr (fst kv)) d)
  | PyStr s => Ok (chars s)
  | _ => Raise (Exn TypeError [])
  end.

(** [l[i]] on a Python list with a non-negative index. *)
Definition list_getitem {A : Type} (l : list A) (i : nat) : result A :=
  match l !! i with
  | Some x => Ok x
  | None => Raise (Exn IndexError [PyStr "list index out of range"])
  end.

(** ** Dates and times *)

(** A naive [datetime.datetime]: the fields of the Python object.  The
    constructor of the Python class only builds values that satisfy
    [valid_datetime]. *)
Record datetime : Type := DateTime {
  year : nat;
  month : nat;
  day : nat;
  hour : nat;
  minute : nat;
  second : nat
}.

Definition is_leap (y : nat) : bool :=
  (y mod 4 =? 0) && (negb (y mod 100 =? 0) || (y mod 400 =? 0)).

Definition days_in_month (y m : nat) : nat :=
  match m with
  | 2 => if is_leap y then 29 else 28
  | 4 | 6 | 9 | 11 => 30
  | _ => 31
  end.

(** [datetime.MAXYEAR] *)
#[local] Set Warnings "-abstract-large-number".
Definition MAXYEAR : nat := 9999.
#[local] Set Warnings "abstract-large-number".

Definition valid_datetime (t : datetime) : bool :=
  (1 <=? year t) && (year t <=? MAXYEAR) &&
  (1 <=? month t) && (month t <=? 12) &&
  (1 <=? day t) && (day t <=? days_in_month (year t) (month t)) &&
  (hour t <? 24) && (minute t <? 60) && (second t <? 60).

(** One calendar day later, same time of day; [OverflowError] past
    [MAXYEAR], as [datetime.__add__] raises. *)
Definition next_day (t : datetime) : result datetime :=
  if day t <? days_in_month (year t) (month t) then
    Ok (DateTime (year t) (month t) (S (day t)) (hour t) (minute t) (second t))
  else if month t <? 12 then
    Ok (DateTime (year t) (S (month t)) 1 (hour t) (minute t) (second t))
  else if year t <? MAXYEAR then
    Ok (DateTime (S (year t)) 1 1 (hour t) (minute t) (second t))
  else Raise (Exn OverflowError [PyStr "date value out of range"]).

(** [t + timedelta(days=n)] *)
Fixpoint add_days (t : datetime) (n : nat) : result datetime :=
  match n with
  | 0 => Ok t
  | S n' => t' <~ next_day t ;; add_days t' n'
  end.

(** *** [strftime] *)

Definition digit (n : nat) : ascii := ascii_of_nat (48 + n mod 10).

(** Decimal numeral of [n] without padding; [fuel] bounds the number of
    digits. *)
Fixpoint dec_aux (fuel n : nat) (acc : string) : string :=
  match fuel with
  | 0 => acc
  | S fuel' =>
      let acc' := String (digit n) acc in
      if n <? 10 then acc' else dec_aux fuel' (n / 10) acc'
  end.

Definition dec (n : nat) : string := dec_aux (S n) n "".

Fixpoint zeros (k : nat) : string :=
  match k with
  | 0 => ""
  | S k' => String "0" (zeros k')
  end.

(** [n] in decimal, zero-padded on the left to at least [w] characters. *)
Definition zfill (w n : nat) : string :=
  let s := dec n in zeros (w - String.length s) ++ s.

(** The hour on the 12-hour clock, 1 to 12. *)
Definition hour12 (h : nat) : nat :=
  if h mod 12 =? 0 then 12 else h mod 12.

Definition am_pm (h : nat) : string := if h <? 12 then "AM" else "PM".

(** The conversion of one directive letter, as glibc does it in the C
    locale: [%Y] is the year in decimal with no padding (a year below
    1000 has fewer than four digits), the two-digit fields are padded
    with zeros. *)
Definition directive (c : ascii) (t : datetime) : string :=
  if Ascii.eqb c "Y" then dec (year t)
  else if Ascii.eqb c "m" then zfill 2 (month t)
  else if Ascii.eqb c "d" then zfill 2 (day t)
  else if Ascii.eqb c "H" then zfill 2 (hour t)
  else if Ascii.eqb c "M" then zfill 2 (minute t)
  else if Ascii.eqb c "I" then zfill 2 (hour12 (hour t))
  else if Ascii.eqb c "p" then am_pm (hour t)
  else String "%" (String c "").

(** [t.strftime(fmt)] for the directives this module uses; [%-I] is the
    glibc flag that drops the padding of [%I].  Other characters are
    copied. *)
Fixpoint strftime (fmt : string) (t : datetime) : string :=
  match fmt with
  | String "%" (String "-" (String "I" rest)) =>
      dec (hour12 (hour t)) ++ strftime rest t
  | String "%" (String c rest) => directive c t ++ strftime rest t
  | String c rest => String c (strftime rest t)
  | EmptyString => EmptyString
  end.

(** ** The sensor *)

(** [class NOAATidesData(TypedDict)]: a single tide.  At run time a
    [TypedDict] is a plain [dict], so the fields hold whatever [update]
    stored in them. *)
Record NOAATidesData : Type := mkNOAATidesData {
  time_stamp : datetime;
  hi_lo : pyval;
  predicted_wl : pyval
}.

(** [class NOAATidesAndCurrentsSensor]: the four configuration fields
    and [data : list[NOAATidesData] | None]. *)
Record Sensor : Type := mkSensor {
  _name : string;
  _station_id : string;
  _timezone : string;
  _unit_system : string;
  data : option (list NOAATidesData)
}.

(** [__init__] *)
Definition init (name station_id timezone unit_system : string) : Sensor :=
  {| _name := name;
     _station_id := station_id;
     _timezone := timezone;
     _unit_system := unit_system;
     data := None |}.

(** The [name] property. *)
Definition name (self : Sensor) : string := _name self.

(** The assignment [self.data = d]. *)
Definition set_data (self : Sensor) (d : option (list NOAATidesData)) : Sensor :=
  {| _name := _name self;
     _station_id := _station_id self;
     _timezone := _timezone self;
     _unit_system := _unit_system self;
     data := d |}.

(** The [extra_state_attributes] property.  The dictionary [attr] is
    filled in the order of the source, each subscript [self.data[i]]
    being evaluated where the source evaluates it. *)
Definition extra_state_attributes (self : Sensor) : result (gmap string pyval) :=
  let attr : gmap string pyval := ∅ in
  match data self with
  | None => Ok attr
  | Some d =>
      e1 <~ list_getitem d 1 ;;
      if py_eq_str (hi_lo e1) "H" then
        let attr :=
          <["high_tide_time" := PyStr (strftime "%Y-%m-%dT%H:%M" (time_stamp e1))]> attr in
        let attr := <["high_tide_height" := predicted_wl e1]> attr in
        e2 <~ list_getitem d 2 ;;
        let attr :=
          <["low_tide_time" := PyStr (strftime "%Y-%m-%dT%H:%M" (time_stamp e2))]> attr in
        let attr := <["low_tide_height" := predicted_wl e2]> attr in
        Ok attr
      else if py_eq_str (hi_lo e1) "L" then
        let attr :=
          <["low_tide_time" := PyStr (strftime "%Y-%m-%dT%H:%M" (time_stamp e1))]> attr in
        let attr := <["low_tide_height" := predicted_wl e1]> attr in
        e2 <~ list_getitem d 2 ;;
        let attr :=
          <["high_tide_time" := PyStr (strftime "%Y-%m-%dT%H:%M" (time_stamp e2))]> attr in
        let attr := <["high_tide_height" := predicted_wl e2]> attr in
        Ok attr
      else Ok attr
  end.

(** The [native_value] property; [None] is Python's [None]. *)
Definition native_value (self : Sensor) : result (option string) :=
  match data self with
  | None => Ok None
  | Some d =>
      e0 <~ list_getitem d 0 ;;
      let api_time := time_stamp e0 in
      if py_eq_str (hi_lo e0) "H" then
        let tidetime := strftime "%-I:%M %p" api_time in
        Ok (Some ("High tide at " ++ tidetime))
      else if py_eq_str (hi_lo e0) "L" then
        let tidetime := strftime "%-I:%M %p" api_time in
        Ok (Some ("Low tide at " ++ tidetime))
      else Ok None
  end.

(** ** The collaborators of [update] *)

Definition DATA_GETTER_URL : string :=
  "https://api.tidesandcurrents.noaa.gov/api/prod/datagetter".

(** One call [requests.get(url, params=params, timeout=timeout)]. *)
Record request : Type := mkRequest {
  url : string;
  params : list (string * string);
  timeout : nat
}.

(** A [requests.Response], seen through its [json()] method. *)
Record response : Type := mkResponse {
  json : result pyval
}.

(** What surrounds one call of [update]: the clock, the HTTP client and
    [dateutil.parser.parse].  Each may raise. *)
Record world : Type := mkWorld {
  now : datetime;
  requests_get : request -> result response;
  parser_parse : pyval -> result datetime
}.

Inductive log_level : Type := DEBUG | ERROR.

Inductive log_arg : Type :=
| LogVal (v : pyval)
| LogStr (s : string)
| LogArgs (args : list pyval)   (* the tuple [err.args] *)
| LogExn (e : exn).

Record log_record : Type := mkLog {
  level : log_level;
  msg : string;
  args : list log_arg
}.

(** What one call of [update] leaves behind: the sensor afterwards, the
    calls made to [requests.get], the records handed to [_LOGGER], and
    whether the call returned or raised. *)
Record outcome : Type := mkOutcome {
  self_after : Sensor;
  get_calls : list request;
  logged : list log_record;
  returned : result unit
}.

(** The [params] dictionary and the call built from it. *)
Definition build_params (self : Sensor) (begin end_ : datetime)
  : list (string * string) :=
  [ ("begin_date", strftime "%Y%m%d %H:%M" begin);
    ("end_date", strftime "%Y%m%d %H:%M" end_);
    ("product", "predictions");
    ("datum", "MLLW");
    ("interval", "hilo");
    ("units", _unit_system self);
    ("time_zone", _timezone self);
    ("format", "json");
    ("station", _station_id self) ].

Definition build_request (self : Sensor) (begin end_ : datetime) : request :=
  {| url := DATA_GETTER_URL;
     params := build_params self begin end_;
     timeout := 10 |}.

(** The element expression of the comprehension:
    [NOAATidesData(time_stamp=parser.parse(tide_data["t"]),
                   hi_lo=tide_data["type"], predicted_wl=tide_data["v"])],
    keyword arguments evaluated left to right. *)
Definition tide_of (w : world) (tide_data : pyval) : result NOAATidesData :=
  t <~ py_getitem tide_data "t" ;;
  ts <~ parser_parse w t ;;
  ty <~ py_getitem tide_data "type" ;;
  v <~ py_getitem tide_data "v" ;;
  Ok {| time_stamp := ts; hi_lo := ty; predicted_wl := v |}.

(** The part of the [try] body that can raise, up to the value about to
    be assigned to [self.data]. *)
Definition fetch (w : world) (req : request)
  : result (pyval * list NOAATidesData) :=
  resp <~ requests_get w req ;;
  body <~ json resp ;;
  api_data <~ py_getitem body "predictions" ;;
  items <~ py_iter api_data ;;
  tides <~ comprehension (tide_of w) items ;;
  Ok (api_data, tides).

(** [update].  [end = begin + delta] is computed before the [try]; the
    two [except] clauses are tried in the order of the source; an
    exception matching neither leaves [update] with [self.data] as it
    was. *)
Definition update (w : world) (self : Sensor) : outcome :=
  let begin := now w in
  match add_days begin 2 with
  | Raise err => mkOutcome self [] [] (Raise err)
  | Ok end_ =>
      let req := build_request self begin end_ in
      match fetch w req with
      | Ok (api_data, tides) =>
          mkOutcome (set_data self (Some tides)) [req]
            [ mkLog DEBUG "Data = %s" [LogVal api_data];
              mkLog DEBUG "Recent Tide data queried with start time set to %s"
                [LogStr (strftime "%m-%d-%Y %H:%M" begin)] ]
            (Ok tt)
      | Raise err =>
          if is_ValueError (exn_cls err) then
            mkOutcome (set_data self None) [req]
              [ mkLog ERROR "Check NOAA Tides and Currents: %s"
                  [LogArgs (exn_args err)] ]
              (Ok tt)
          else if is_RequestException (exn_cls err) then
            mkOutcome (set_data self None) [req]
              [ mkLog ERROR "Error fetching NOAA Tides and Currents data: %s"
                  [LogExn err] ]
              (Ok tt)
          else mkOutcome self [req] [] (Raise err)
      end
  end.

(** ** A sample world *)

(** The upstream service writes times as [YYYY-MM-DD HH:MM].  This
    reader of exactly that layout stands in for [dateutil] in the
    examples below: digits are read positionally, anything else is a
    [ParserError], and a non-string is a [TypeError] as in [dateutil]. *)
Definition digit_val (c : ascii) : option nat :=
  let n := nat_of_ascii c in
  if (48 <=? n) && (n <=? 57) then Some (n - 48) else None.

Fixpoint read_num (k : nat) (s : string) (acc : nat) : option (nat * string) :=
  match k with
  | 0 => Some (acc, s)
  | S k' =>
      match s with
      | String c s' =>
          match digit_val c with
          | Some v => read_num k' s' (10 * acc + v)
          | None => None
          end
      | EmptyString => None
      end
  end.

Definition expect (c : ascii) (s : string) : option string :=
  match s with
  | String c' s' => if Ascii.eqb c c' then Some s' else None
  | EmptyString => None
  end.

Definition read_noaa_time (s : string) : option datetime :=
  '(y, s) ← read_num 4 s 0;
  s ← expect "-" s;
  '(m, s) ← read_num 2 s 0;
  s ← expect "-" s;
  '(d, s) ← read_num 2 s 0;
  s ← expect " " s;
  '(h, s) ← read_num 2 s 0;
  s ← expect ":" s;
  '(mi, s) ← read_num 2 s 0;
  let t := DateTime y m d h mi 0 in
  match s with
  | EmptyString => if valid_datetime t then Some t else None
  | _ => None
  end.

Definition sample_parse (v : pyval) : result datetime :=
  match v with
  | PyStr s =>
      match read_noaa_time s with
      | Some t => Ok t
      | None => Raise (Exn ParserError [PyStr "Unknown string format: %s"; PyStr s])
      end
  | _ => Raise (Exn TypeError [PyStr "Parser must be a string or character stream"])
  end.

(** A world whose clock shows [t] and whose HTTP client answers every
    request with the decoded body [body]. *)
Definition answering (t : datetime) (body : pyval) : world :=
  {| now := t;
     requests_get := fun _ => Ok (mkResponse (Ok body));
     parser_parse := sample_parse |}.

(** A world whose HTTP client raises [e]. *)
Definition failing (t : datetime) (e : exn) : world :=
  {| now := t;
     requests_get := fun _ => Raise e;
     parser_parse := sample_parse |}.

(** A world whose response body cannot be decoded. *)
Definition garbled (t : datetime) (e : exn) : world :=
  {| now := t;
     requests_get := fun _ => Ok (mkResponse (Raise e));
     parser_parse := sample_parse |}.

Definition tide_record (t ty v : string) : pyval :=
  PyDict [("t", PyStr t); ("v", PyStr v); ("type", PyStr ty)].

(** *** Sample data *)

(** The clock reading and the sensor of the sample runs. *)
Definition noon : datetime := DateTime 2024 6 1 12 0 0.

Definition station : Sensor := init "NOAA Tides" "8721164" "lst_ldt" "metric".

(** A body in the layout of the upstream service: heights are numeric
    strings. *)
Definition three_tides : pyval :=
  PyDict [("predictions",
    PyList [ tide_record "2024-06-01 06:50" "L" "0.4";
             tide_record "2024-06-01 13:05" "H" "2.3";
             tide_record "2024-06-01 19:20" "L" "0.5" ])].

(** The same with two records only. *)
Definition two_tides : pyval :=
  PyDict [("predictions",
    PyList [ tide_record "2024-06-01 13:05" "H" "2.3";
             tide_record "2024-06-01 19:20" "L" "0.5" ])].

(** The body the service sends when it has no predictions to give. *)
Definition error_body : pyval :=
  PyDict [("error",
    PyDict [("message", PyStr "No Predictions data was found.")])].

(** What [update] makes of [three_tides]. *)
Definition three_events : list NOAATidesData :=
  [ mkNOAATidesData (DateTime 2024 6 1 6 50 0) (PyStr "L") (PyStr "0.4");
    mkNOAATidesData (DateTime 2024 6 1 13 5 0) (PyStr "H") (PyStr "2.3");
    mkNOAATidesData (DateTime 2024 6 1 19 20 0) (PyStr "L") (PyStr "0.5") ].

(** A sensor that already holds data. *)
Definition polled : Sensor := set_data station (Some three_events).

(** Events as the declaration of [NOAATidesData] has them, with float
    heights. *)
Definition high_1305 : NOAATidesData :=
  mkNOAATidesData (DateTime 2024 6 1 13 5 0) (PyStr "H") (PyFloat 0x1.2666666666666p+1).
Definition low_1920 : NOAATidesData :=
  mkNOAATidesData (DateTime 2024 6 1 19 20 0) (PyStr "L") (PyFloat 0x1.999999999999ap-2).
Definition high_0131 : NOAATidesData :=
  mkNOAATidesData (DateTime 2024 6 2 1 31 0) (PyStr "H") (PyFloat 0x1.0cccccccccccdp+1).
Definition odd_0700 : NOAATidesData :=
  mkNOAATidesData (DateTime 2024 6 1 7 0 0) (PyStr "HH") (PyFloat 0x1p+0).

Definition with_data (d : list NOAATidesData) : Sensor :=
  set_data station (Some d).

(** ** Vocabulary of the statements *)

(** The renderings the accessors use, digit by digit. *)

(** A string whose first character is not the digit zero. *)
Definition starts_nonzero (s : string) : bool :=
  match s with
  | String c _ => negb (Ascii.eqb c "0")
  | EmptyString => false
  end.

(** [YYYY-MM-DDTHH:MM] *)
Definition iso_minute (t : datetime) : string :=
  String (digit (year t / 1000)) (String (digit (year t / 100))
  (String (digit (year t / 10)) (String (digit (year t))
  (String "-" (String (digit (month t / 10)) (String (digit (month t))
  (String "-" (String (digit (day t / 10)) (String (digit (day t))
  (String "T" (String (digit (hour t / 10)) (String (digit (hour t))
  (String ":" (String (digit (minute t / 10)) (String (digit (minute t))
  "" ))))))))))))))).

(** [YYYYMMDD HH:MM] *)
Definition compact_minute (t : datetime) : string :=
  String (digit (year t / 1000)) (String (digit (year t / 100))
  (String (digit (year t / 10)) (String (digit (year t))
  (String (digit (month t / 10)) (String (digit (month t))
  (String (digit (day t / 10)) (String (digit (day t))
  (String " " (String (digit (hour t / 10)) (String (digit (hour t))
  (String ":" (String (digit (minute t / 10)) (String (digit (minute t))
  "" ))))))))))))).

(** [H:MM AM] or [HH:MM PM]: the hour on the 12-hour clock without
    padding, the minute on two digits. *)
Definition clock12 (t : datetime) : string :=
  dec (hour12 (hour t)) ++
  String ":" (String (digit (minute t / 10)) (String (digit (minute t))
  (String " " (am_pm (hour t))))).

(** The four attributes, the high-tide pair taken from [high] and the
    low-tide pair from [low]. *)
Definition tide_attributes (high low : NOAATidesData) : gmap string pyval :=
  <["high_tide_time" := PyStr (iso_minute (time_stamp high))]>
  (<["high_tide_height" := predicted_wl high]>
  (<["low_tide_time" := PyStr (iso_minute (time_stamp low))]>
  (<["low_tide_height" := predicted_wl low]> ∅))).

(** The rendering of [%Y-%m-%dT%H:%M]: the year in decimal as it is,
    then [-MM-DDTHH:MM].  For a year of four digits this is
    [iso_minute]. *)
Definition year_minute (t : datetime) : string :=
  dec (year t) ++
  String "-" (String (digit (month t / 10)) (String (digit (month t))
  (String "-" (String (digit (day t / 10)) (String (digit (day t))
  (String "T" (String (digit (hour t / 10)) (String (digit (hour t))
  (String ":" (String (digit (minute t / 10)) (String (digit (minute t))
  "" ))))))))))).

(** The four attributes with the times rendered by [year_minute]. *)
Definition tide_attributes_unpadded (high low : NOAATidesData)
  : gmap string pyval :=
  <["high_tide_time" := PyStr (year_minute (time_stamp high))]>
  (<["high_tide_height" := predicted_wl high]>
  (<["low_tide_time" := PyStr (year_minute (time_stamp low))]>
  (<["low_tide_height" := predicted_wl low]> ∅))).

(** Three events of the year 999 and a clock of that year. *)
Definition events_of_999 : list NOAATidesData :=
  [ mkNOAATidesData (DateTime 999 1 1 21 0 0) (PyStr "L") (PyStr "0.4");
    mkNOAATidesData (DateTime 999 1 2 3 4 0) (PyStr "H") (PyStr "2.3");
    mkNOAATidesData (DateTime 999 1 2 9 10 0) (PyStr "L") (PyStr "0.5") ].

Definition noon_of_999 : datetime := DateTime 999 6 1 12 0 0.

(** The configuration of a sensor: everything but [data]. *)
Definition config (self : Sensor) : string * string * string * string :=
  (_name self, _station_id self, _timezone self, _unit_system self).

(** The sensor after a succession of polls, one world per poll,
    whether each returned or raised. *)
Definition polls (ws : list world) (self : Sensor) : Sensor :=
  foldl (fun s w => self_after (update w s)) self ws.

(** ** Platform set-up *)

Definition DEFAULT_NAME : string := "NOAA Tides".
Definition DEFAULT_TIMEZONE : string := "lst_ldt".

Definition TIMEZONES : list string := ["gmt"; "lst"; "lst_ldt"].
Definition UNIT_SYSTEMS : list string := ["english"; "metric"].

(** The four keys of the platform configuration as the user wrote them,
    each present or not; values are strings, on which [cv.string] is the
    identity. *)
Record raw_config : Type := mkRaw {
  raw_station_id : option string;
  raw_name : option string;
  raw_time_zone : option string;
  raw_unit_system : option string
}.

(** The configuration after [PLATFORM_SCHEMA]: the required station id,
    the name and the time zone (always present, through their
    defaults), and the optional unit system. *)
Record platform_config : Type := mkConfig {
  conf_station_id : string;
  conf_name : string;
  conf_time_zone : string;
  conf_unit_system : option string
}.

(** [vol.In(container)] *)
Definition vol_In (container : list string) (v : string) : bool :=
  existsb (String.eqb v) container.

(** The four entries [PLATFORM_SCHEMA] adds to the sensor platform
    schema: [Required] rejects a missing key, [Optional] with a default
    fills it in, [vol.In] rejects a value outside the list.  [None]
    stands for the validation error. *)
Definition PLATFORM_SCHEMA (raw : raw_config) : option platform_config :=
  match raw_station_id raw with
  | None => None
  | Some station_id =>
      let nm := default DEFAULT_NAME (raw_name raw) in
      let timezone := default DEFAULT_TIMEZONE (raw_time_zone raw) in
      if negb (vol_In TIMEZONES timezone) then None
      else
        match raw_unit_system raw with
        | Some u =>
            if vol_In UNIT_SYSTEMS u
            then Some (mkConfig station_id nm timezone (Some u))
            else None
        | None => Some (mkConfig station_id nm timezone None)
        end
  end.

(** The call [add_entities(new_entities, update_before_add)]. *)
Record add_entities_call : Type := mkAddEntities {
  new_entities : list Sensor;
  update_before_add : bool
}.

(** [setup_platform]; [hass_units_metric] is the test
    [hass.config.units is METRIC_SYSTEM].  The function returns [None];
    what it does is the one call of [add_entities], which is what the
    model returns. *)
Definition setup_platform (hass_units_metric : bool) (config : platform_config)
  : result add_entities_call :=
  let station_id := conf_station_id config in
  let nm := conf_name config in
  let timezone := conf_time_zone config in
  unit_system <~
    match conf_unit_system config with
    | Some u => Ok u
    | None =>
        if hass_units_metric then list_getitem UNIT_SYSTEMS 1
        else list_getitem UNIT_SYSTEMS 0
    end ;;
  let noaa_sensor := init nm station_id timezone unit_system in
  Ok (mkAddEntities [noaa_sensor] true).

(** A configuration that names the station only. *)
Definition station_only : raw_config :=
  mkRaw (Some "8721164") None None None.

(** A clock in the last two days of the last year. *)
#[local] Set Warnings "-abstract-large-number".
Definition last_days : datetime := DateTime 9999 12 30 8 0 0.
#[local] Set Warnings "abstract-large-number".

(** The four attribute keys. *)
Definition attribute_keys : gset string :=
  {[ "high_tide_time"; "high_tide_height"; "low_tide_time"; "low_tide_height" ]}.

(** The two ERROR records of [update]. *)
Definition check_record (err : exn) : log_record :=
  mkLog ERROR "Check NOAA Tides and Currents: %s" [LogArgs (exn_args err)].

Definition fetching_record (err : exn) : log_record :=
  mkLog ERROR "Error fetching NOAA Tides and Currents data: %s" [LogExn err].

(** ** Facts about the Python layer *)

Lemma py_eq_str_true (v : pyval) (s : string) :
  py_eq_str v s = true <-> v = PyStr s.
Proof.
  split.
  - destruct v; simpl; try discriminate.
    intros H. apply String.eqb_eq in H. by subst.
  - intros ->. simpl. apply String.eqb_refl.
Qed.

Lemma py_eq_str_false (v : pyval) (s : string) :
  py_eq_str v s = false <-> v <> PyStr s.
Proof.
  rewrite <- py_eq_str_true. destruct (py_eq_str v s); split; congruence.
Qed.

Lemma list_getitem_Ok {A : Type} (l : list A) (i : nat) (x : A) :
  l !! i = Some x -> list_getitem l i = Ok x.
Proof. intros H. unfold list_getitem. by rewrite H. Qed.

Lemma list_getitem_IndexError {A : Type} (l : list A) (i : nat) :
  length l <= i ->
  list_getitem l i = Raise (Exn IndexError [PyStr "list index out of range"]).
Proof.
  intros H. unfold list_getitem. by rewrite (lookup_ge_None_2 l i H).
Qed.

(** A comprehension that completes has one result per item, in the
    order of the items. *)
Lemma comprehension_Ok {A B : Type} (f : A -> result B) (l : list A) (r : list B) :
  comprehension f l = Ok r ->
  length r = length l /\
  forall k x, l !! k = Some x -> exists y, r !! k = Some y /\ f x = Ok y.
Proof.
  revert r. induction l as [|a l IH]; intros r; simpl.
  - intros [= <-]. split; [done|]. intros k x H. by destruct k.
  - destruct (f a) as [b|e] eqn:Hfa; simpl; [|discriminate].
    destruct (comprehension f l) as [r'|e] eqn:Hl; simpl; [|discriminate].
    intros [= <-]. destruct (IH r' eq_refl) as [Hlen Hnth].
    split; [simpl; congruence|].
    intros [|k] x; simpl.
    + intros [= <-]. eauto.
    + apply Hnth.
Qed.

(** Conversely, when every item converts, the comprehension completes
    with exactly the converted items. *)
Lemma comprehension_total {A B : Type} (f : A -> result B) (g : A -> B) (l : list A) :
  (forall x, x ∈ l -> f x = Ok (g x)) ->
  comprehension f l = Ok (map g l).
Proof.
  induction l as [|a l IH]; intros H; simpl; [done|].
  rewrite (H a) by apply list_elem_of_here. simpl.
  rewrite IH; [done|]. intros x Hx. apply H. by apply list_elem_of_further.
Qed.

(** ** Facts about dates and their formatting *)

Lemma forallb_below (P : nat -> bool) (k : nat) :
  forallb P (seq 0 k) = true -> forall n, n < k -> P n = true.
Proof.
  intros H n Hn. rewrite forallb_forall in H. apply H.
  apply in_seq. lia.
Qed.

(** Two digits exactly for what fits in two digits. *)
Lemma zfill2_digits (n : nat) :
  n < 100 -> zfill 2 n = String (digit (n / 10)) (String (digit n) "").
Proof.
  intros Hn.
  apply String.eqb_eq.
  revert n Hn.
  apply (forallb_below
    (fun n => String.eqb (zfill 2 n) (String (digit (n / 10)) (String (digit n) "")))).
  vm_compute. reflexivity.
Qed.

(** Four digits exactly for the years from 1000 to [MAXYEAR]. *)
Lemma dec_year_digits (n : nat) :
  1000 <= n <= MAXYEAR ->
  dec n =
  String (digit (n / 1000)) (String (digit (n / 100))
    (String (digit (n / 10)) (String (digit n) ""))).
Proof.
  intros [Hlo Hhi].
  assert (Hlt : n < S MAXYEAR) by lia.
  assert (Hb : (n <? 1000) || String.eqb (dec n)
            (String (digit (n / 1000)) (String (digit (n / 100))
               (String (digit (n / 10)) (String (digit n) "")))) = true).
  { revert Hlt. generalize n. clear.
    apply (forallb_below
      (fun n => (n <? 1000) || String.eqb (dec n)
         (String (digit (n / 1000)) (String (digit (n / 100))
            (String (digit (n / 10)) (String (digit n) "")))))).
    vm_compute. reflexivity. }
  apply orb_true_iff in Hb as [Hb | Hb].
  - apply Nat.ltb_lt in Hb. lia.
  - by apply String.eqb_eq.
Qed.

(** Fewer than four digits for the years below 1000. *)
Lemma dec_year_short (n : nat) :
  n < 1000 -> String.length (dec n) < 4.
Proof.
  intros Hn. apply Nat.ltb_lt. revert n Hn.
  apply (forallb_below (fun n => String.length (dec n) <? 4)).
  vm_compute. reflexivity.
Qed.

Lemma hour12_range (h : nat) : 1 <= hour12 h <= 12.
Proof.
  unfold hour12. destruct (h mod 12 =? 0) eqn:E.
  - lia.
  - apply Nat.eqb_neq in E.
    pose proof (Nat.mod_upper_bound h 12). lia.
Qed.

(** The unpadded hour never starts with a zero. *)
Lemma dec_hour12_no_leading_zero (h : nat) :
  starts_nonzero (dec (hour12 h)) = true.
Proof.
  pose proof (hour12_range h) as Hr.
  assert (Hlt : hour12 h - 1 < 12) by lia.
  replace (hour12 h) with (S (hour12 h - 1)) by lia.
  revert Hlt. generalize (hour12 h - 1). clear.
  apply (forallb_below (fun n => starts_nonzero (dec (S n)))).
  vm_compute. reflexivity.
Qed.

Lemma valid_datetime_bounds (t : datetime) :
  valid_datetime t = true ->
  1 <= year t <= MAXYEAR /\ 1 <= month t <= 12 /\
  1 <= day t <= days_in_month (year t) (month t) /\
  hour t < 24 /\ minute t < 60 /\ second t < 60.
Proof.
  unfold valid_datetime. rewrite !andb_true_iff.
  rewrite !Nat.leb_le, !Nat.ltb_lt. tauto.
Qed.

Lemma days_in_month_bounds (y m : nat) : 28 <= days_in_month y m <= 31.
Proof.
  unfold days_in_month.
  do 12 (destruct m as [|m]; [destruct (is_leap y); lia|]).
  lia.
Qed.

Lemma strftime_year_minute (t : datetime) :
  valid_datetime t = true ->
  strftime "%Y-%m-%dT%H:%M" t = year_minute t.
Proof.
  intros Hv. apply valid_datetime_bounds in Hv.
  destruct Hv as (Hy & Hm & Hd & Hh & Hmi & _).
  pose proof (days_in_month_bounds (year t) (month t)) as Hdim.
  cbn [strftime]. unfold directive; cbn [Ascii.eqb Bool.eqb].
  rewrite !zfill2_digits by lia.
  reflexivity.
Qed.

Lemma year_minute_iso (t : datetime) :
  1000 <= year t <= MAXYEAR -> year_minute t = iso_minute t.
Proof.
  intros Hy. unfold year_minute. by rewrite (dec_year_digits _ Hy).
Qed.

Lemma strftime_iso_minute (t : datetime) :
  valid_datetime t = true ->
  1000 <= year t ->
  strftime "%Y-%m-%dT%H:%M" t = iso_minute t.
Proof.
  intros Hv Hy. rewrite (strftime_year_minute _ Hv).
  apply year_minute_iso. apply valid_datetime_bounds in Hv. lia.
Qed.

Lemma strftime_compact_minute (t : datetime) :
  valid_datetime t = true ->
  1000 <= year t ->
  strftime "%Y%m%d %H:%M" t = compact_minute t.
Proof.
  intros Hv Hy1000. apply valid_datetime_bounds in Hv.
  destruct Hv as (Hy & Hm & Hd & Hh & Hmi & _).
  pose proof (days_in_month_bounds (year t) (month t)) as Hdim.
  cbn [strftime]. unfold directive; cbn [Ascii.eqb Bool.eqb].
  rewrite dec_year_digits by lia.
  rewrite !zfill2_digits by lia.
  reflexivity.
Qed.

Lemma strftime_clock12 (t : datetime) :
  valid_datetime t = true ->
  strftime "%-I:%M %p" t = clock12 t.
Proof.
  intros Hv. apply valid_datetime_bounds in Hv.
  destruct Hv as (_ & _ & _ & _ & Hmi & _).
  cbn [strftime]. unfold directive; cbn [Ascii.eqb Bool.eqb].
  rewrite zfill2_digits by lia.
  unfold clock12, am_pm. destruct (hour t <? 12); reflexivity.
Qed.

(** ** The read accessors *)

(** The accessors on a sensor without data. *)
Lemma accessors_unavailable (self : Sensor) :
  data self = None ->
  native_value self = Ok None /\ extra_state_attributes self = Ok ∅.
Proof.
  intros H. unfold native_value, extra_state_attributes. by rewrite H.
Qed.

(** Where [extra_state_attributes] stops on a series of fewer than
    three events: it raises [IndexError] unless the series has exactly
    two events and the second is neither ["H"] nor ["L"]. *)
Lemma extra_state_attributes_short (self : Sensor) (d : list NOAATidesData) :
  data self = Some d ->
  length d < 3 ->
  extra_state_attributes self =
    match d with
    | [_; e1] =>
        if py_eq_str (hi_lo e1) "H" || py_eq_str (hi_lo e1) "L"
        then Raise (Exn IndexError [PyStr "list index out of range"])
        else Ok ∅
    | _ => Raise (Exn IndexError [PyStr "list index out of range"])
    end.
Proof.
  intros Hd Hlen. unfold extra_state_attributes. rewrite Hd.
  destruct d as [|e0 [|e1 [|e2 rest]]]; simpl in Hlen; try lia; try reflexivity.
  cbn. destruct (py_eq_str (hi_lo e1) "H"); [reflexivity|].
  destruct (py_eq_str (hi_lo e1) "L"); reflexivity.
Qed.

(** C6. A freshly constructed sensor keeps the four configuration
    values it was given and has no data; before any [update] its
    [native_value] is [None] and its [extra_state_attributes] is the
    empty dictionary.  Construction is a total function of its
    arguments: it returns a sensor for every configuration and touches
    nothing else. *)
Theorem init_unavailable (nm station_id timezone unit_system : string) :
  let self := init nm station_id timezone unit_system in
  _name self = nm /\ _station_id self = station_id /\
  _timezone self = timezone /\ _unit_system self = unit_system /\
  data self = None /\
  native_value self = Ok None /\
  extra_state_attributes self = Ok ∅.
Proof. repeat split. Qed.

(** C5. On a non-empty series [native_value] looks at the first event
    only: ["High tide at <time>"] when its kind is ["H"], ["Low tide at
    <time>"] when it is ["L"], [None] for any other kind; the time is
    the 12-hour clock [clock12], whose hour has no leading zero. *)
Theorem native_value_first_event
    (self : Sensor) (e0 : NOAATidesData) (rest : list NOAATidesData) :
  data self = Some (e0 :: rest) ->
  valid_datetime (time_stamp e0) = true ->
  (hi_lo e0 = PyStr "H" ->
     native_value self = Ok (Some ("High tide at " ++ clock12 (time_stamp e0)))) /\
  (hi_lo e0 = PyStr "L" ->
     native_value self = Ok (Some ("Low tide at " ++ clock12 (time_stamp e0)))) /\
  (hi_lo e0 <> PyStr "H" -> hi_lo e0 <> PyStr "L" ->
     native_value self = Ok None) /\
  starts_nonzero (clock12 (time_stamp e0)) = true.
Proof.
  intros Hd Hv. unfold native_value. rewrite Hd. cbn [list_getitem lookup list_lookup rbind].
  rewrite (strftime_clock12 _ Hv).
  repeat split.
  - intros ->. reflexivity.
  - intros ->. reflexivity.
  - intros HH HL.
    apply py_eq_str_false in HH, HL. by rewrite HH, HL.
  - unfold clock12.
    pose proof (dec_hour12_no_leading_zero (hour (time_stamp e0))) as Hz.
    destruct (dec (hour12 (hour (time_stamp e0)))); [discriminate|exact Hz].
Qed.

Lemma native_value_first_event_witness :
  native_value (with_data [high_1305; low_1920; high_0131])
  = Ok (Some "High tide at 1:05 PM").
Proof.
  apply (native_value_first_event
           (with_data [high_1305; low_1920; high_0131]) high_1305
           [low_1920; high_0131]); reflexivity.
Defined.

(** C2, as amended.  On a series of at least three events the
    attributes follow the kind of the second event: when it is ["H"]
    the high-tide pair comes from event 1 and the low-tide pair from
    event 2; when it is ["L"] the low-tide pair comes from event 1 and
    the high-tide pair from event 2.  Heights are the stored values.
    Times are rendered by [%Y-%m-%dT%H:%M]: the year as it is, then
    [-MM-DDTHH:MM] on the 24-hour clock with zeros ([year_minute]);
    for events of the year 1000 or later this is [YYYY-MM-DDTHH:MM]
    ([iso_minute]). *)
Theorem extra_state_attributes_pairing
    (self : Sensor) (e0 e1 e2 : NOAATidesData) (rest : list NOAATidesData) :
  data self = Some (e0 :: e1 :: e2 :: rest) ->
  valid_datetime (time_stamp e1) = true ->
  valid_datetime (time_stamp e2) = true ->
  ((hi_lo e1 = PyStr "H" ->
      extra_state_attributes self = Ok (tide_attributes_unpadded e1 e2)) /\
   (hi_lo e1 = PyStr "L" ->
      extra_state_attributes self = Ok (tide_attributes_unpadded e2 e1))) /\
  (1000 <= year (time_stamp e1) ->
   1000 <= year (time_stamp e2) ->
   (hi_lo e1 = PyStr "H" ->
      extra_state_attributes self = Ok (tide_attributes e1 e2)) /\
   (hi_lo e1 = PyStr "L" ->
      extra_state_attributes self = Ok (tide_attributes e2 e1))).
Proof.
  intros Hd Hv1 Hv2.
  assert (Hgen :
    (hi_lo e1 = PyStr "H" ->
       extra_state_attributes self = Ok (tide_attributes_unpadded e1 e2)) /\
    (hi_lo e1 = PyStr "L" ->
       extra_state_attributes self = Ok (tide_attributes_unpadded e2 e1))).
  { unfold extra_state_attributes. rewrite Hd.
    cbn [list_getitem lookup list_lookup rbind].
    rewrite (strftime_year_minute _ Hv1), (strftime_year_minute _ Hv2).
    split; intros ->; cbn [py_eq_str String.eqb Ascii.eqb Bool.eqb]; cbn beta iota;
      f_equal; apply map_eq; intros k; unfold tide_attributes_unpadded;
      repeat (rewrite lookup_insert; case_decide); congruence. }
  split; [exact Hgen|].
  intros Hy1 Hy2.
  assert (E1 : year_minute (time_stamp e1) = iso_minute (time_stamp e1))
    by (apply year_minute_iso; apply valid_datetime_bounds in Hv1; lia).
  assert (E2 : year_minute (time_stamp e2) = iso_minute (time_stamp e2))
    by (apply year_minute_iso; apply valid_datetime_bounds in Hv2; lia).
  unfold tide_attributes. rewrite <- E1, <- E2. exact Hgen.
Qed.

Lemma extra_state_attributes_pairing_witness :
  extra_state_attributes (with_data [high_1305; low_1920; high_0131])
  = Ok (tide_attributes high_0131 low_1920).
Proof.
  destruct (extra_state_attributes_pairing
              (with_data [high_1305; low_1920; high_0131])
              high_1305 low_1920 high_0131 [] eq_refl eq_refl eq_refl)
    as [_ Hfrom1000].
  apply Hfrom1000; [vm_compute; lia | vm_compute; lia | reflexivity].
Defined.

(** C2 as first stated, refuted.  Three events of the year 999, the
    second a high tide on 2 January at 03:04: the time attributes come
    out with a year of three digits, not as [YYYY-MM-DDTHH:MM]. *)
Lemma extra_state_attributes_year_999 :
  exists attrs : gmap string pyval,
    extra_state_attributes (with_data events_of_999) = Ok attrs /\
    attrs !! "high_tide_time" = Some (PyStr "999-01-02T03:04") /\
    attrs !! "low_tide_time" = Some (PyStr "999-01-02T09:10") /\
    attrs !! "high_tide_time" <> Some (PyStr (iso_minute (DateTime 999 1 2 3 4 0))).
Proof.
  eexists. split; [reflexivity|]. repeat split. discriminate.
Qed.

(** C10. On a series of at least three events whose second event is
    neither ["H"] nor ["L"], both branches are skipped and the
    attributes are the empty dictionary. *)
Theorem extra_state_attributes_other_kind
    (self : Sensor) (e0 e1 e2 : NOAATidesData) (rest : list NOAATidesData) :
  data self = Some (e0 :: e1 :: e2 :: rest) ->
  hi_lo e1 <> PyStr "H" ->
  hi_lo e1 <> PyStr "L" ->
  extra_state_attributes self = Ok ∅.
Proof.
  intros Hd HH HL. unfold extra_state_attributes. rewrite Hd.
  cbn [list_getitem lookup list_lookup rbind].
  apply py_eq_str_false in HH, HL. by rewrite HH, HL.
Qed.

Lemma extra_state_attributes_other_kind_witness :
  extra_state_attributes (with_data [high_1305; odd_0700; low_1920]) = Ok ∅.
Proof.
  apply (extra_state_attributes_other_kind
           (with_data [high_1305; odd_0700; low_1920])
           high_1305 odd_0700 low_1920 []); [reflexivity | discriminate | discriminate].
Defined.

(** C1. A series of two events whose second event is a high tide: the
    source reads [self.data[2]] and the accessor raises [IndexError]
    to its caller instead of returning a dictionary. *)
Theorem extra_state_attributes_two_events_raises :
  extra_state_attributes (with_data [low_1920; high_0131])
  = Raise (Exn IndexError [PyStr "list index out of range"]).
Proof. reflexivity. Qed.

(** ** [update] *)

Lemma next_day_cases (t : datetime) :
  (day t < days_in_month (year t) (month t) /\
   next_day t = Ok (DateTime (year t) (month t) (S (day t))
                      (hour t) (minute t) (second t))) \/
  (days_in_month (year t) (month t) <= day t /\ month t < 12 /\
   next_day t = Ok (DateTime (year t) (S (month t)) 1
                      (hour t) (minute t) (second t))) \/
  (days_in_month (year t) (month t) <= day t /\ 12 <= month t /\
   year t < MAXYEAR /\
   next_day t = Ok (DateTime (S (year t)) 1 1 (hour t) (minute t) (second t))) \/
  (days_in_month (year t) (month t) <= day t /\ 12 <= month t /\
   MAXYEAR <= year t /\ raises (next_day t) = true).
Proof.
  unfold next_day.
  destruct (day t <? days_in_month (year t) (month t)) eqn:E1.
  { apply Nat.ltb_lt in E1. by left. }
  apply Nat.ltb_ge in E1. right.
  destruct (month t <? 12) eqn:E2.
  { apply Nat.ltb_lt in E2. by left. }
  apply Nat.ltb_ge in E2. right.
  destruct (year t <? MAXYEAR) eqn:E3.
  { apply Nat.ltb_lt in E3. by left. }
  apply Nat.ltb_ge in E3. by right.
Qed.

Lemma add_days_2_raises_iff (t : datetime) :
  valid_datetime t = true ->
  (raises (add_days t 2) = true <->
   year t = MAXYEAR /\ month t = 12 /\ 30 <= day t).
Proof.
  intros Hv. apply valid_datetime_bounds in Hv.
  destruct Hv as (Hy & Hm & Hd & _).
  pose proof (days_in_month_bounds (year t) (S (month t))) as Hb1.
  pose proof (days_in_month_bounds (S (year t)) 1) as Hb2.
  assert (H12 : month t = 12 -> days_in_month (year t) (month t) = 31)
    by (intros ->; reflexivity).
  cbn [add_days].
  destruct (next_day_cases t)
    as [(E1 & ->) | [(E1 & E2 & ->) | [(E1 & E2 & E3 & ->) | (E1 & E2 & E3 & Hr)]]];
    cbn [rbind].
  - match goal with |- context [next_day ?u] =>
      destruct (next_day_cases u)
        as [(F1 & ->) | [(F1 & F2 & ->) | [(F1 & F2 & F3 & ->) | (F1 & F2 & F3 & Fr)]]]
    end; cbn [rbind raises year month day] in *.
    + split; [discriminate|]. intros (_ & Hm' & ?). specialize (H12 Hm'). lia.
    + split; [discriminate|]. lia.
    + split; [discriminate|]. lia.
    + destruct (next_day _); [discriminate|]. cbn [rbind raises].
      split; [intros _|done].
      assert (Hm' : month t = 12) by lia. specialize (H12 Hm'). lia.
  - match goal with |- context [next_day ?u] =>
      destruct (next_day_cases u)
        as [(F1 & ->) | [(F1 & F2 & ->) | [(F1 & F2 & F3 & ->) | (F1 & F2 & F3 & Fr)]]]
    end; cbn [rbind raises year month day] in *;
      try (split; [discriminate|lia]); lia.
  - match goal with |- context [next_day ?u] =>
      destruct (next_day_cases u)
        as [(F1 & ->) | [(F1 & F2 & ->) | [(F1 & F2 & F3 & ->) | (F1 & F2 & F3 & Fr)]]]
    end; cbn [rbind raises year month day] in *;
      try (split; [discriminate|lia]); lia.
  - destruct (next_day t); [discriminate|]. cbn [rbind raises].
    split; [intros _|done].
    assert (Hm' : month t = 12) by lia. specialize (H12 Hm'). lia.
Qed.

Lemma next_day_year (t t' : datetime) :
  next_day t = Ok t' -> year t <= year t'.
Proof.
  unfold next_day.
  destruct (day t <? _); [| destruct (month t <? 12);
    [| destruct (year t <? MAXYEAR); [|discriminate] ] ];
  intros [= <-]; cbn [year]; lia.
Qed.

Lemma add_days_year (n : nat) (t t' : datetime) :
  add_days t n = Ok t' -> year t <= year t'.
Proof.
  revert t. induction n as [|n IH]; intros t; cbn [add_days].
  - by intros [= <-].
  - destruct (next_day t) as [t1|] eqn:E; cbn [rbind]; [|discriminate].
    intros H. apply IH in H. apply next_day_year in E. lia.
Qed.

Lemma next_day_total (t : datetime) :
  year t < MAXYEAR \/ day t < days_in_month (year t) (month t) ->
  exists t', next_day t = Ok t'.
Proof.
  intros H. unfold next_day.
  destruct (day t <? days_in_month (year t) (month t)) eqn:E1; [eauto|].
  destruct (month t <? 12); [eauto|].
  destruct (year t <? MAXYEAR) eqn:E3; [eauto|].
  apply Nat.ltb_ge in E1, E3. lia.
Qed.

Lemma next_day_progress (t t' : datetime) :
  year t < MAXYEAR -> next_day t = Ok t' ->
  year t' < MAXYEAR \/ day t' < days_in_month (year t') (month t').
Proof.
  intros Hy. unfold next_day.
  destruct (day t <? days_in_month (year t) (month t)); [|
    destruct (month t <? 12); [|
      destruct (year t <? MAXYEAR); [|discriminate] ] ];
  intros [= <-]; cbn [year month day]; try (left; assumption).
  right. pose proof (days_in_month_bounds (S (year t)) 1). lia.
Qed.

(** Two days after a date before the last year always exist. *)
Lemma add_days_2_total (t : datetime) :
  year t < MAXYEAR -> exists end_, add_days t 2 = Ok end_.
Proof.
  intros Hy. cbn [add_days].
  destruct (next_day_total t (or_introl Hy)) as [t1 H1].
  rewrite H1. cbn [rbind].
  destruct (next_day_total t1 (next_day_progress t t1 Hy H1)) as [t2 H2].
  rewrite H2. cbn [rbind]. eauto.
Qed.

Lemma next_day_valid (t t' : datetime) :
  valid_datetime t = true -> next_day t = Ok t' -> valid_datetime t' = true.
Proof.
  intros Hv. apply valid_datetime_bounds in Hv.
  destruct Hv as (Hy & Hm & Hd & Hh & Hmi & Hs).
  unfold next_day.
  destruct (day t <? _) eqn:E1; [| destruct (month t <? 12) eqn:E2;
    [| destruct (year t <? MAXYEAR) eqn:E3; [| discriminate ] ] ];
  intros [= <-]; unfold valid_datetime;
    cbn [year month day hour minute second];
    rewrite !andb_true_iff, !Nat.leb_le, !Nat.ltb_lt.
  - apply Nat.ltb_lt in E1. repeat split; lia.
  - apply Nat.ltb_lt in E2.
    pose proof (days_in_month_bounds (year t) (S (month t))).
    repeat split; lia.
  - apply Nat.ltb_lt in E3.
    pose proof (days_in_month_bounds (S (year t)) 1).
    repeat split; lia.
Qed.

Lemma add_days_valid (n : nat) (t t' : datetime) :
  valid_datetime t = true -> add_days t n = Ok t' -> valid_datetime t' = true.
Proof.
  revert t. induction n as [|n IH]; intros t Hv; cbn [add_days].
  - by intros [= <-].
  - destruct (next_day t) as [t1|e] eqn:E; cbn [rbind]; [|discriminate].
    apply IH. eapply next_day_valid; eauto.
Qed.

Lemma get_calls_update (w : world) (self : Sensor) (end_ : datetime) :
  add_days (now w) 2 = Ok end_ ->
  get_calls (update w self) = [build_request self (now w) end_].
Proof.
  intros H. unfold update. rewrite H.
  destruct (fetch w _) as [[api_data tides]|err]; [reflexivity|].
  destruct (is_ValueError (exn_cls err)); [reflexivity|].
  destruct (is_RequestException (exn_cls err)); reflexivity.
Qed.

(** A successful run, read off the definition. *)
Lemma update_success
    (w : world) (self : Sensor) (end_ : datetime)
    (api_data : pyval) (tides : list NOAATidesData) :
  add_days (now w) 2 = Ok end_ ->
  fetch w (build_request self (now w) end_) = Ok (api_data, tides) ->
  self_after (update w self) = set_data self (Some tides) /\
  returned (update w self) = Ok tt.
Proof. intros H1 H2. unfold update. rewrite H1, H2. done. Qed.

(** An exception of one of the two caught classes is absorbed: the data
    become [None], one ERROR record is logged, [update] returns. *)
Lemma update_absorbs (w : world) (self : Sensor) (end_ : datetime) (err : exn) :
  add_days (now w) 2 = Ok end_ ->
  fetch w (build_request self (now w) end_) = Raise err ->
  is_ValueError (exn_cls err) || is_RequestException (exn_cls err) = true ->
  data (self_after (update w self)) = None /\
  returned (update w self) = Ok tt /\
  exists r, logged (update w self) = [r] /\ level r = ERROR.
Proof.
  intros H1 H2 Hc. unfold update. rewrite H1, H2.
  destruct (is_ValueError (exn_cls err)); [ cbn; eauto |].
  cbn in Hc. rewrite Hc. cbn; eauto.
Qed.

(** An exception of any other class leaves [update] uncaught, with the
    data as they were and nothing logged. *)
Lemma update_propagates (w : world) (self : Sensor) (end_ : datetime) (err : exn) :
  add_days (now w) 2 = Ok end_ ->
  fetch w (build_request self (now w) end_) = Raise err ->
  is_ValueError (exn_cls err) = false ->
  is_RequestException (exn_cls err) = false ->
  update w self = mkOutcome self [build_request self (now w) end_] [] (Raise err).
Proof.
  intros H1 H2 Hv Hr. unfold update. by rewrite H1, H2, Hv, Hr.
Qed.

(** The request does not depend on the data held. *)
Lemma build_request_set_data (self : Sensor) d (b e : datetime) :
  build_request (set_data self d) b e = build_request self b e.
Proof. reflexivity. Qed.

(** C7. After an [update] that returned with data, the events are the
    records of ["predictions"] converted one by one and in the order of
    the response: event [k] is the conversion of record [k].  The new
    list is the same whatever the sensor held before, so it replaces the
    previous series and is never merged with it. *)
Theorem update_preserves_order
    (w : world) (self : Sensor) (tides : list NOAATidesData) :
  returned (update w self) = Ok tt ->
  data (self_after (update w self)) = Some tides ->
  exists (end_ : datetime) (resp : response) (body api_data : pyval)
         (records : list pyval),
    requests_get w (build_request self (now w) end_) = Ok resp /\
    json resp = Ok body /\
    py_getitem body "predictions" = Ok api_data /\
    py_iter api_data = Ok records /\
    length tides = length records /\
    (forall k record, records !! k = Some record ->
       exists ev, tides !! k = Some ev /\ tide_of w record = Ok ev) /\
    (forall previous,
       data (self_after (update w (set_data self previous))) = Some tides).
Proof.
  unfold update.
  destruct (add_days (now w) 2) as [end_|e] eqn:Hend; [|discriminate].
  destruct (fetch w (build_request self (now w) end_)) as [[api_data ts]|err] eqn:Hf.
  - cbn. intros _ [= ->].
    pose proof Hf as Hf'. unfold fetch in Hf'.
    destruct (requests_get w _) as [resp|] eqn:Hget; cbn in Hf'; [|discriminate].
    destruct (json resp) as [body|] eqn:Hjson; cbn in Hf'; [|discriminate].
    destruct (py_getitem body "predictions") as [api|] eqn:Hpred; cbn in Hf'; [|discriminate].
    destruct (py_iter api) as [records|] eqn:Hiter; cbn in Hf'; [|discriminate].
    destruct (comprehension (tide_of w) records) as [r|] eqn:Hc; cbn in Hf'; [|discriminate].
    injection Hf' as -> ->.
    destruct (comprehension_Ok _ _ _ Hc) as [Hlen Hnth].
    exists end_, resp, body, api_data, records.
    repeat split; try assumption.
    intros previous. rewrite build_request_set_data, Hf. reflexivity.
  - destruct (is_ValueError (exn_cls err)); [cbn; discriminate|].
    destruct (is_RequestException (exn_cls err)); cbn; discriminate.
Qed.

(** The conversion of a record stores its ["type"] and ["v"] entries as
    they are. *)
Lemma tide_of_raw (w : world) (record : pyval) (ev : NOAATidesData) :
  tide_of w record = Ok ev ->
  py_getitem record "type" = Ok (hi_lo ev) /\
  py_getitem record "v" = Ok (predicted_wl ev).
Proof.
  unfold tide_of.
  destruct (py_getitem record "t") as [t|]; cbn [rbind]; [|discriminate].
  destruct (parser_parse w t) as [ts|]; cbn [rbind]; [|discriminate].
  destruct (py_getitem record "type") as [ty|]; cbn [rbind]; [|discriminate].
  destruct (py_getitem record "v") as [v|]; cbn [rbind]; [|discriminate].
  by intros [= <-].
Qed.

Example update_three_tides :
  self_after (update (answering noon three_tides) station)
  = set_data station (Some three_events).
Proof. reflexivity. Qed.

Lemma update_preserves_order_witness :
  exists (end_ : datetime) (resp : response) (body api_data : pyval)
         (records : list pyval),
    requests_get (answering noon three_tides)
      (build_request station (now (answering noon three_tides)) end_) = Ok resp /\
    json resp = Ok body /\
    py_getitem body "predictions" = Ok api_data /\
    py_iter api_data = Ok records /\
    length three_events = length records /\
    (forall k record, records !! k = Some record ->
       exists ev, three_events !! k = Some ev /\
                  tide_of (answering noon three_tides) record = Ok ev) /\
    (forall previous,
       data (self_after (update (answering noon three_tides)
                           (set_data station previous))) = Some three_events).
Proof.
  apply (update_preserves_order (answering noon three_tides) station three_events);
    reflexivity.
Defined.

(** C8, as amended.  Whenever the clock shows a valid date of the
    year 1000 or later other than 30 and 31 December 9999, [update]
    calls [requests.get] exactly once, whatever the answer: on the fixed
    URL, with a timeout of 10, and with the nine parameters below, where
    [begin_date] is the clock reading and [end_date] the reading two
    days later, both rendered [YYYYMMDD HH:MM]. *)
Theorem update_single_request (w : world) (self : Sensor) :
  valid_datetime (now w) = true ->
  1000 <= year (now w) ->
  ~ (year (now w) = MAXYEAR /\ month (now w) = 12 /\ 30 <= day (now w)) ->
  exists end_ : datetime,
    add_days (now w) 2 = Ok end_ /\
    get_calls (update w self) =
      [ {| url := "https://api.tidesandcurrents.noaa.gov/api/prod/datagetter";
           params :=
             [ ("begin_date", compact_minute (now w));
               ("end_date", compact_minute end_);
               ("product", "predictions");
               ("datum", "MLLW");
               ("interval", "hilo");
               ("units", _unit_system self);
               ("time_zone", _timezone self);
               ("format", "json");
               ("station", _station_id self) ];
           timeout := 10 |} ].
Proof.
  intros Hv Hy Hlast.
  destruct (add_days (now w) 2) as [end_|e] eqn:Hend.
  2:{ destruct Hlast. apply (add_days_2_raises_iff _ Hv). by rewrite Hend. }
  exists end_. split; [reflexivity|].
  pose proof (add_days_valid 2 _ _ Hv Hend) as Hv'.
  pose proof (add_days_year 2 _ _ Hend) as Hy'.
  rewrite (get_calls_update w self end_ Hend).
  unfold build_request, build_params, DATA_GETTER_URL.
  rewrite (strftime_compact_minute _ Hv) by lia.
  rewrite (strftime_compact_minute _ Hv') by lia.
  reflexivity.
Qed.

Lemma update_single_request_witness :
  add_days noon 2 = Ok (DateTime 2024 6 3 12 0 0) /\
  get_calls (update (failing noon (Exn Timeout [])) station) =
    [ {| url := "https://api.tidesandcurrents.noaa.gov/api/prod/datagetter";
         params :=
           [ ("begin_date", "20240601 12:00");
             ("end_date", "20240603 12:00");
             ("product", "predictions");
             ("datum", "MLLW");
             ("interval", "hilo");
             ("units", "metric");
             ("time_zone", "lst_ldt");
             ("format", "json");
             ("station", "8721164") ];
         timeout := 10 |} ].
Proof.
  destruct (update_single_request (failing noon (Exn Timeout [])) station)
    as (end_ & Hend & Hcalls).
  - reflexivity.
  - vm_compute; lia.
  - intros (_ & Hm & _). discriminate Hm.
  - assert (Hlit : end_ = DateTime 2024 6 3 12 0 0)
      by (vm_compute in Hend; congruence).
    subst end_. split; [reflexivity | exact Hcalls].
Defined.

(** C8 as first stated, refuted.  On 30 December 9999 the two-day
    window does not exist and [update] makes no request at all; and at
    noon on 1 June 999 the one request carries a [begin_date] whose
    year has three digits, not [YYYYMMDD HH:MM]. *)
Lemma update_request_edge_dates :
  get_calls (update (answering last_days three_tides) station) = [] /\
  exists req : request,
    get_calls (update (answering noon_of_999 three_tides) station) = [req] /\
    params req !! 0 = Some ("begin_date", "9990601 12:00") /\
    params req !! 1 = Some ("end_date", "9990603 12:00").
Proof.
  split; [reflexivity|]. eexists. split; [reflexivity|]. split; reflexivity.
Qed.

Example request_at_noon :
  get_calls (update (answering noon three_tides) station) =
    [ {| url := "https://api.tidesandcurrents.noaa.gov/api/prod/datagetter";
         params :=
           [ ("begin_date", "20240601 12:00");
             ("end_date", "20240603 12:00");
             ("product", "predictions");
             ("datum", "MLLW");
             ("interval", "hilo");
             ("units", "metric");
             ("time_zone", "lst_ldt");
             ("format", "json");
             ("station", "8721164") ];
         timeout := 10 |} ].
Proof. reflexivity. Qed.

(** *** The configuration *)

Lemma update_config (w : world) (self : Sensor) :
  config (self_after (update w self)) = config self.
Proof.
  unfold update.
  destruct (add_days (now w) 2) as [end_|]; [|reflexivity].
  destruct (fetch w _) as [[api_data tides]|err]; [reflexivity|].
  destruct (is_ValueError (exn_cls err)); [reflexivity|].
  destruct (is_RequestException (exn_cls err)); reflexivity.
Qed.

(** Only [data] can differ after [update]. *)
Lemma update_only_data (w : world) (self : Sensor) :
  self_after (update w self) = set_data self (data (self_after (update w self))).
Proof.
  unfold update.
  destruct (add_days (now w) 2) as [end_|]; [|by destruct self].
  destruct (fetch w _) as [[api_data tides]|err]; [reflexivity|].
  destruct (is_ValueError (exn_cls err)); [reflexivity|].
  destruct (is_RequestException (exn_cls err)); [reflexivity|].
  by destruct self.
Qed.

Lemma polls_config (ws : list world) (self : Sensor) :
  config (polls ws self) = config self.
Proof.
  revert self. induction ws as [|w ws IH]; intros self; [reflexivity|].
  cbn [polls foldl]. fold (polls ws (self_after (update w self))).
  rewrite IH. apply update_config.
Qed.

(** C9. [update] assigns to [data] only: after any succession of polls,
    whatever each one met, the name, station id, time zone and unit
    system are those given to [__init__], and one more [update] changes
    nothing but [data]. *)
Theorem polls_keep_config
    (nm station_id timezone unit_system : string) (ws : list world) :
  let self := polls ws (init nm station_id timezone unit_system) in
  _name self = nm /\ _station_id self = station_id /\
  _timezone self = timezone /\ _unit_system self = unit_system /\
  forall w, self_after (update w self)
            = set_data self (data (self_after (update w self))).
Proof.
  cbn zeta.
  pose proof (polls_config ws (init nm station_id timezone unit_system)) as H.
  unfold config in H. cbn [init _name _station_id _timezone _unit_system] in H.
  injection H as H1 H2 H3 H4.
  repeat (split; [assumption|]). intros w. apply update_only_data.
Qed.

(** *** Failures *)

(** A timeout is a [RequestException]: absorbed by the second clause. *)
Example update_timeout :
  update (failing noon (Exn Timeout [])) polled
  = mkOutcome (set_data polled None)
      [build_request polled noon (DateTime 2024 6 3 12 0 0)]
      [mkLog ERROR "Error fetching NOAA Tides and Currents data: %s"
         [LogExn (Exn Timeout [])]]
      (Ok tt).
Proof. reflexivity. Qed.

(** A body that is not JSON: the exception of [requests] is both a
    [ValueError] and a [RequestException]; the first clause takes it. *)
Example update_garbled :
  update (garbled noon (Exn RequestsJSONDecodeError [PyStr "Expecting value"])) polled
  = mkOutcome (set_data polled None)
      [build_request polled noon (DateTime 2024 6 3 12 0 0)]
      [mkLog ERROR "Check NOAA Tides and Currents: %s"
         [LogArgs [PyStr "Expecting value"]]]
      (Ok tt).
Proof. reflexivity. Qed.

(** A time that cannot be read is a [ParserError], a [ValueError]. *)
Example update_malformed_time :
  let body := PyDict [("predictions",
                PyList [tide_record "2024-06-01 06:50" "L" "0.4";
                        tide_record "soon" "H" "2.3"])] in
  data (self_after (update (answering noon body) polled)) = None /\
  returned (update (answering noon body) polled) = Ok tt.
Proof. split; reflexivity. Qed.

(** A height that is not a number is not looked at: the poll succeeds
    and stores it. *)
Example update_malformed_height :
  let body := PyDict [("predictions",
                PyList [tide_record "2024-06-01 06:50" "L" "n/a"])] in
  data (self_after (update (answering noon body) polled))
  = Some [mkNOAATidesData (DateTime 2024 6 1 6 50 0) (PyStr "L") (PyStr "n/a")].
Proof. reflexivity. Qed.

(** ["predictions"] holding a number: iteration raises [TypeError],
    which no clause catches. *)
Example update_predictions_not_a_list :
  let body := PyDict [("predictions", PyInt 0)] in
  returned (update (answering noon body) polled) = Raise (Exn TypeError []) /\
  self_after (update (answering noon body) polled) = polled.
Proof. split; reflexivity. Qed.

(** C3. A response without ["predictions"] (the error body of the
    service) on a sensor that holds data: the subscript raises
    [KeyError], neither [except] clause matches, and [update] raises to
    its caller with the data unchanged and nothing logged. *)
Theorem update_missing_predictions_raises :
  update (answering noon error_body) polled
  = mkOutcome polled
      [build_request polled noon (DateTime 2024 6 3 12 0 0)]
      []
      (Raise (Exn KeyError [PyStr "predictions"])).
Proof. reflexivity. Qed.

(** C4. A response in the layout of the service, whose second record
    is a high tide at 13:05 of height ["2.3"]: the poll succeeds, the
    stored [predicted_wl] is the string of the response, and the
    attribute [high_tide_height] is that string, not a float. *)
Theorem update_keeps_height_string :
  let self := self_after (update (answering noon three_tides) station) in
  returned (update (answering noon three_tides) station) = Ok tt /\
  predicted_wl <$> (data self ≫= (.!! 1)) = Some (PyStr "2.3") /\
  exists attrs : gmap string pyval,
    extra_state_attributes self = Ok attrs /\
    attrs !! "high_tide_time" = Some (PyStr "2024-06-01T13:05") /\
    attrs !! "high_tide_height" = Some (PyStr "2.3") /\
    is_float (PyStr "2.3") = false.
Proof.
  cbn zeta. split; [reflexivity|]. split; [reflexivity|].
  eexists. split; [reflexivity|]. repeat split.
Qed.

(** Had the response carried the height as a JSON number, the same
    code would have stored a float. *)
Example update_height_number :
  let body := PyDict [("predictions",
                PyList [PyDict [("t", PyStr "2024-06-01 13:05");
                                ("v", PyFloat 0x1.2666666666666p+1);
                                ("type", PyStr "H")]])] in
  (predicted_wl <$> (data (self_after (update (answering noon body) station))
                       ≫= (.!! 0)))
  = Some (PyFloat 0x1.2666666666666p+1).
Proof. reflexivity. Qed.

(** A response with two events, then the attributes: [IndexError]. *)
Example two_tides_attributes_raise :
  let self := self_after (update (answering noon two_tides) station) in
  returned (update (answering noon two_tides) station) = Ok tt /\
  native_value self = Ok (Some "High tide at 1:05 PM") /\
  extra_state_attributes self
  = Raise (Exn IndexError [PyStr "list index out of range"]).
Proof. repeat split. Qed.

(** An empty ["predictions"]: both accessors raise. *)
Example no_tides_accessors_raise :
  let body := PyDict [("predictions", PyList [])] in
  let self := self_after (update (answering noon body) station) in
  data self = Some [] /\
  raises (native_value self) = true /\
  raises (extra_state_attributes self) = true.
Proof. repeat split. Qed.

(** ** Further properties of the accessors *)

(** [native_value] raises exactly on the empty series, and what it
    raises is the [IndexError] of [self.data[0]]. *)
Theorem native_value_raises_iff (self : Sensor) (e : exn) :
  native_value self = Raise e <->
  data self = Some [] /\ e = Exn IndexError [PyStr "list index out of range"].
Proof.
  unfold native_value. destruct (data self) as [[|e0 rest]|]; cbn.
  - split; [intros [= <-]; done | intros [_ ->]; done].
  - destruct (py_eq_str (hi_lo e0) "H"); [|destruct (py_eq_str (hi_lo e0) "L")];
      (split; [discriminate | intros [[=] _]]).
  - split; [discriminate | intros [[=] _]].
Qed.

(** With three events or more [extra_state_attributes] returns. *)
Theorem extra_state_attributes_returns (self : Sensor) (d : list NOAATidesData) :
  data self = Some d ->
  3 <= length d ->
  exists attrs, extra_state_attributes self = Ok attrs.
Proof.
  intros Hd Hlen. unfold extra_state_attributes. rewrite Hd.
  destruct d as [|e0 [|e1 [|e2 rest]]]; simpl in Hlen; try lia.
  cbn. destruct (py_eq_str (hi_lo e1) "H"); [eauto|].
  destruct (py_eq_str (hi_lo e1) "L"); eauto.
Qed.

Lemma extra_state_attributes_returns_witness :
  exists attrs, extra_state_attributes polled = Ok attrs.
Proof.
  apply (extra_state_attributes_returns polled three_events);
    [reflexivity | vm_compute; lia].
Defined.

(** Whatever [extra_state_attributes] returns is all or nothing:
    the empty dictionary or one with exactly the four keys. *)
Theorem extra_state_attributes_keys (self : Sensor) (attrs : gmap string pyval) :
  extra_state_attributes self = Ok attrs ->
  attrs = ∅ \/ dom attrs = attribute_keys.
Proof.
  unfold extra_state_attributes.
  destruct (data self) as [d|]; [|intros [= <-]; by left].
  destruct (list_getitem d 1) as [e1|]; cbn [rbind]; [|discriminate].
  destruct (py_eq_str (hi_lo e1) "H").
  - destruct (list_getitem d 2) as [e2|]; cbn [rbind]; [|discriminate].
    intros [= <-]. right. rewrite !dom_insert_L, dom_empty_L.
    unfold attribute_keys. set_solver.
  - destruct (py_eq_str (hi_lo e1) "L"); [|intros [= <-]; by left].
    destruct (list_getitem d 2) as [e2|]; cbn [rbind]; [|discriminate].
    intros [= <-]. right. rewrite !dom_insert_L, dom_empty_L.
    unfold attribute_keys. set_solver.
Qed.

Lemma extra_state_attributes_keys_witness :
  tide_attributes high_0131 low_1920 = ∅ \/
  dom (tide_attributes high_0131 low_1920) = attribute_keys.
Proof.
  apply (extra_state_attributes_keys (with_data [high_1305; low_1920; high_0131])).
  reflexivity.
Defined.

Lemma extra_state_attributes_short_witness :
  extra_state_attributes (with_data [high_1305; odd_0700]) = Ok ∅.
Proof.
  apply (extra_state_attributes_short (with_data [high_1305; odd_0700])
           [high_1305; odd_0700]); [reflexivity | vm_compute; lia].
Defined.

(** At midnight and at noon the 12-hour clock of [native_value] shows
    12, never 0: ["High tide at 12:MM AM"] or ["... PM"], and likewise
    for a low tide. *)
Theorem native_value_twelve
    (self : Sensor) (e0 : NOAATidesData) (rest : list NOAATidesData) (high : bool) :
  data self = Some (e0 :: rest) ->
  valid_datetime (time_stamp e0) = true ->
  hi_lo e0 = PyStr (if high then "H" else "L") ->
  hour (time_stamp e0) = 0 \/ hour (time_stamp e0) = 12 ->
  native_value self =
    Ok (Some ((if high then "High tide at 12:" else "Low tide at 12:") ++
              String (digit (minute (time_stamp e0) / 10))
                (String (digit (minute (time_stamp e0)))
                   (String " " (if hour (time_stamp e0) =? 0 then "AM" else "PM"))))).
Proof.
  intros Hd Hv Hk Hh. unfold native_value. rewrite Hd.
  cbn [list_getitem lookup list_lookup rbind]. rewrite Hk.
  rewrite (strftime_clock12 _ Hv). unfold clock12.
  destruct high; destruct Hh as [-> | ->]; reflexivity.
Qed.

Lemma native_value_twelve_witness :
  native_value
    (with_data [mkNOAATidesData (DateTime 2024 6 2 0 7 0) (PyStr "L") (PyStr "0.1")])
  = Ok (Some "Low tide at 12:07 AM").
Proof.
  apply (native_value_twelve
    (with_data [mkNOAATidesData (DateTime 2024 6 2 0 7 0) (PyStr "L") (PyStr "0.1")])
    (mkNOAATidesData (DateTime 2024 6 2 0 7 0) (PyStr "L") (PyStr "0.1")) [] false);
    [reflexivity | reflexivity | reflexivity | left; reflexivity].
Defined.

(** ** Further properties of [update] *)

Lemma next_day_raise_class (t : datetime) (e : exn) :
  next_day t = Raise e -> exn_cls e = OverflowError.
Proof.
  unfold next_day.
  destruct (day t <? _); [discriminate|].
  destruct (month t <? 12); [discriminate|].
  destruct (year t <? MAXYEAR); [discriminate|].
  by intros [= <-].
Qed.

Lemma add_days_raise_class (n : nat) (t : datetime) (e : exn) :
  add_days t n = Raise e -> exn_cls e = OverflowError.
Proof.
  revert t. induction n as [|n IH]; intros t; cbn [add_days]; [discriminate|].
  destruct (next_day t) as [t'|e'] eqn:E; cbn [rbind].
  - apply IH.
  - intros [= <-]. by apply next_day_raise_class in E.
Qed.

(** What [update] does with the outcome of [fetch], case by case. *)
Lemma update_cases (w : world) (self : Sensor) (end_ : datetime) :
  add_days (now w) 2 = Ok end_ ->
  let req := build_request self (now w) end_ in
  match fetch w req with
  | Ok (api_data, tides) =>
      update w self =
        mkOutcome (set_data self (Some tides)) [req]
          [ mkLog DEBUG "Data = %s" [LogVal api_data];
            mkLog DEBUG "Recent Tide data queried with start time set to %s"
              [LogStr (strftime "%m-%d-%Y %H:%M" (now w))] ]
          (Ok tt)
  | Raise err =>
      update w self =
        if is_ValueError (exn_cls err) then
          mkOutcome (set_data self None) [req] [check_record err] (Ok tt)
        else if is_RequestException (exn_cls err) then
          mkOutcome (set_data self None) [req] [fetching_record err] (Ok tt)
        else mkOutcome self [req] [] (Raise err)
  end.
Proof.
  intros H. cbn zeta. unfold update. rewrite H.
  destruct (fetch w _) as [[api_data tides]|err]; reflexivity.
Qed.

Lemma update_set_data (w : world) (self : Sensor) (prev : option (list NOAATidesData)) :
  get_calls (update w (set_data self prev)) = get_calls (update w self) /\
  logged (update w (set_data self prev)) = logged (update w self) /\
  returned (update w (set_data self prev)) = returned (update w self) /\
  (returned (update w self) = Ok tt ->
   self_after (update w (set_data self prev)) = self_after (update w self)).
Proof.
  unfold update.
  destruct (add_days (now w) 2) as [end_|e]; [|cbn; repeat split; discriminate].
  rewrite build_request_set_data.
  destruct (fetch w _) as [[api_data tides]|err]; [cbn; repeat split|].
  destruct (is_ValueError (exn_cls err)); [cbn; repeat split|].
  destruct (is_RequestException (exn_cls err)); cbn; repeat split.
  discriminate.
Qed.

(** Whenever [update] raises, the sensor is exactly as it was, nothing
    has been logged, and the exception is of neither caught class. *)
Theorem update_raise_leaves_sensor (w : world) (self : Sensor) (e : exn) :
  returned (update w self) = Raise e ->
  self_after (update w self) = self /\
  logged (update w self) = [] /\
  is_ValueError (exn_cls e) = false /\
  is_RequestException (exn_cls e) = false.
Proof.
  unfold update.
  destruct (add_days (now w) 2) as [end_|e'] eqn:Hend.
  - destruct (fetch w _) as [[api_data tides]|err]; [discriminate|].
    destruct (is_ValueError (exn_cls err)) eqn:Hv; [discriminate|].
    destruct (is_RequestException (exn_cls err)) eqn:Hr; [discriminate|].
    cbn. intros [= <-]. done.
  - cbn. intros [= <-]. apply add_days_raise_class in Hend. by rewrite Hend.
Qed.

Lemma update_raise_leaves_sensor_witness :
  self_after (update (answering noon (PyList [])) polled) = polled /\
  logged (update (answering noon (PyList [])) polled) = [] /\
  is_ValueError TypeError = false /\
  is_RequestException TypeError = false.
Proof.
  apply (update_raise_leaves_sensor (answering noon (PyList [])) polled
           (Exn TypeError [])).
  reflexivity.
Defined.

(** Whenever [update] returns, either the data are [None] and exactly
    one ERROR record was logged, or the data are a list and exactly the
    two DEBUG records were logged. *)
Theorem update_return_logs (w : world) (self : Sensor) :
  returned (update w self) = Ok tt ->
  (data (self_after (update w self)) = None /\
   exists err, logged (update w self) = [check_record err] \/
               logged (update w self) = [fetching_record err]) \/
  (exists tides, data (self_after (update w self)) = Some tides /\
   length (logged (update w self)) = 2 /\
   Forall (fun r => level r = DEBUG) (logged (update w self))).
Proof.
  unfold update.
  destruct (add_days (now w) 2) as [end_|e']; [|discriminate].
  destruct (fetch w _) as [[api_data tides]|err].
  - intros _. right. exists tides. cbn. repeat split. by repeat constructor.
  - destruct (is_ValueError (exn_cls err)); [intros _; left; cbn; eauto|].
    destruct (is_RequestException (exn_cls err)); [intros _; left; cbn; eauto|].
    discriminate.
Qed.

Lemma update_return_logs_witness :
  (data (self_after (update (failing noon (Exn ConnectionError [])) polled)) = None /\
   exists err,
     logged (update (failing noon (Exn ConnectionError [])) polled) = [check_record err] \/
     logged (update (failing noon (Exn ConnectionError [])) polled) = [fetching_record err]) \/
  (exists tides,
     data (self_after (update (failing noon (Exn ConnectionError [])) polled)) = Some tides /\
     length (logged (update (failing noon (Exn ConnectionError [])) polled)) = 2 /\
     Forall (fun r => level r = DEBUG)
       (logged (update (failing noon (Exn ConnectionError [])) polled))).
Proof.
  apply (update_return_logs (failing noon (Exn ConnectionError [])) polled).
  reflexivity.
Defined.

(** An exception raised by [requests.get] that is a [RequestException]
    is absorbed, whatever the sensor held: the data become [None] and
    one ERROR record is logged.  The [ValueError] clause comes first, so
    an exception of both classes is reported by it. *)
Theorem update_get_raises (w : world) (self : Sensor) (end_ : datetime) (err : exn) :
  add_days (now w) 2 = Ok end_ ->
  requests_get w (build_request self (now w) end_) = Raise err ->
  is_RequestException (exn_cls err) = true ->
  update w self =
    mkOutcome (set_data self None) [build_request self (now w) end_]
      [if is_ValueError (exn_cls err) then check_record err else fetching_record err]
      (Ok tt).
Proof.
  intros Hend Hget Hc.
  pose proof (update_cases w self end_ Hend) as H. cbn zeta in H.
  unfold fetch in H. rewrite Hget in H. cbn [rbind] in H.
  rewrite H, Hc. by destruct (is_ValueError (exn_cls err)).
Qed.

Lemma update_get_raises_witness :
  update (failing noon (Exn Timeout [])) polled =
    mkOutcome (set_data polled None)
      [build_request polled noon (DateTime 2024 6 3 12 0 0)]
      [fetching_record (Exn Timeout [])]
      (Ok tt).
Proof.
  apply (update_get_raises (failing noon (Exn Timeout [])) polled
           (DateTime 2024 6 3 12 0 0) (Exn Timeout [])); reflexivity.
Defined.

(** A body that [response.json()] cannot decode, the exception being a
    [ValueError]: absorbed by the first clause, which logs the
    arguments of the exception. *)
Theorem update_json_raises
    (w : world) (self : Sensor) (end_ : datetime) (resp : response) (err : exn) :
  add_days (now w) 2 = Ok end_ ->
  requests_get w (build_request self (now w) end_) = Ok resp ->
  json resp = Raise err ->
  is_ValueError (exn_cls err) = true ->
  update w self =
    mkOutcome (set_data self None) [build_request self (now w) end_]
      [check_record err] (Ok tt).
Proof.
  intros Hend Hget Hjson Hc.
  pose proof (update_cases w self end_ Hend) as H. cbn zeta in H.
  unfold fetch in H. rewrite Hget in H. cbn [rbind] in H.
  rewrite Hjson in H. cbn [rbind] in H.
  by rewrite H, Hc.
Qed.

Lemma update_json_raises_witness :
  update (garbled noon (Exn RequestsJSONDecodeError [PyStr "Expecting value"])) polled =
    mkOutcome (set_data polled None)
      [build_request polled noon (DateTime 2024 6 3 12 0 0)]
      [check_record (Exn RequestsJSONDecodeError [PyStr "Expecting value"])]
      (Ok tt).
Proof.
  apply (update_json_raises
           (garbled noon (Exn RequestsJSONDecodeError [PyStr "Expecting value"]))
           polled (DateTime 2024 6 3 12 0 0)
           (mkResponse (Raise (Exn RequestsJSONDecodeError [PyStr "Expecting value"])))
           (Exn RequestsJSONDecodeError [PyStr "Expecting value"])); reflexivity.
Defined.

(** An [update] that returns does not look at the data held before:
    started from any other data it has the same outcome in every
    respect. *)
Theorem update_forgets_previous
    (w : world) (self : Sensor) (prev : option (list NOAATidesData)) :
  returned (update w self) = Ok tt ->
  update w (set_data self prev) = update w self.
Proof.
  intros Hret.
  destruct (update_set_data w self prev) as (Hg & Hl & Hr & Hs).
  specialize (Hs Hret).
  destruct (update w (set_data self prev)), (update w self); cbn in *.
  by subst.
Qed.

Lemma update_forgets_previous_witness :
  update (answering noon three_tides) (set_data station (Some []))
  = update (answering noon three_tides) station.
Proof.
  apply (update_forgets_previous (answering noon three_tides) station (Some [])).
  reflexivity.
Defined.

(** A record converts exactly when it is an object with the three
    entries ["t"], ["type"] and ["v"] and the parser reads the time;
    the kind and the level are then stored as they came, whatever they
    are. *)
Theorem tide_of_Ok_iff (w : world) (record : pyval) (ev : NOAATidesData) :
  tide_of w record = Ok ev <->
  exists d t,
    record = PyDict d /\
    assoc "t" d = Some t /\
    parser_parse w t = Ok (time_stamp ev) /\
    assoc "type" d = Some (hi_lo ev) /\
    assoc "v" d = Some (predicted_wl ev).
Proof.
  unfold tide_of. split.
  - destruct record; cbn [py_getitem rbind]; try discriminate.
    destruct (assoc "t" d) as [t|] eqn:Ht; cbn [rbind]; [|discriminate].
    destruct (parser_parse w t) as [ts|] eqn:Hp; cbn [rbind]; [|discriminate].
    destruct (assoc "type" d) as [ty|] eqn:Hty; cbn [rbind]; [|discriminate].
    destruct (assoc "v" d) as [v|] eqn:Hv; cbn [rbind]; [|discriminate].
    intros [= <-]. exists d, t. done.
  - intros (d & t & -> & Ht & Hp & Hty & Hv).
    cbn [py_getitem]. rewrite Ht. cbn [rbind]. rewrite Hp. cbn [rbind].
    rewrite Hty. cbn [rbind]. rewrite Hv. cbn [rbind]. by destruct ev.
Qed.

Lemma comprehension_Ok_all {A B : Type} (f : A -> result B) (l : list A) (r : list B) :
  comprehension f l = Ok r -> forall x, x ∈ l -> exists y, f x = Ok y.
Proof.
  intros H x Hx. apply list_elem_of_lookup in Hx as [k Hk].
  destruct (comprehension_Ok f l r H) as [_ Hnth].
  destruct (Hnth k x Hk) as (y & _ & Hy). eauto.
Qed.

(** One record that does not convert is enough to discard the whole
    response: [update] then stores no series at all.  Either the data
    become [None] (a caught exception) or the sensor is left as it was
    (an exception that propagates). *)
Theorem update_bad_record
    (w : world) (self : Sensor) (end_ : datetime) (resp : response)
    (body api_data : pyval) (records : list pyval) (record : pyval) (e : exn) :
  add_days (now w) 2 = Ok end_ ->
  requests_get w (build_request self (now w) end_) = Ok resp ->
  json resp = Ok body ->
  py_getitem body "predictions" = Ok api_data ->
  py_iter api_data = Ok records ->
  record ∈ records ->
  tide_of w record = Raise e ->
  (data (self_after (update w self)) = None /\ returned (update w self) = Ok tt) \/
  (self_after (update w self) = self /\ raises (returned (update w self)) = true).
Proof.
  intros Hend Hget Hjson Hpred Hiter Hin Hbad.
  pose proof (update_cases w self end_ Hend) as H. cbn zeta in H.
  unfold fetch in H. rewrite Hget in H. cbn [rbind] in H.
  rewrite Hjson in H. cbn [rbind] in H. rewrite Hpred in H. cbn [rbind] in H.
  rewrite Hiter in H. cbn [rbind] in H.
  destruct (comprehension (tide_of w) records) as [tides|err] eqn:Hc; cbn [rbind] in H.
  - destruct (comprehension_Ok_all _ _ _ Hc record Hin) as [y Hy]. congruence.
  - rewrite H.
    destruct (is_ValueError (exn_cls err)); [by left|].
    destruct (is_RequestException (exn_cls err)); [by left | by right].
Qed.

Lemma update_bad_record_witness :
  let body := PyDict [("predictions",
                PyList [tide_record "2024-06-01 06:50" "L" "0.4";
                        PyDict [("t", PyStr "2024-06-01 13:05"); ("type", PyStr "H")]])] in
  (data (self_after (update (answering noon body) polled)) = None /\
   returned (update (answering noon body) polled) = Ok tt) \/
  (self_after (update (answering noon body) polled) = polled /\
   raises (returned (update (answering noon body) polled)) = true).
Proof.
  cbn zeta.
  eapply (update_bad_record _ polled (DateTime 2024 6 3 12 0 0) _ _ _ _
            (PyDict [("t", PyStr "2024-06-01 13:05"); ("type", PyStr "H")])
            (Exn KeyError [PyStr "v"]));
    [reflexivity | reflexivity | reflexivity | reflexivity | reflexivity
    | apply list_elem_of_further, list_elem_of_here | reflexivity].
Defined.

(** ["predictions"] holding something that is not a list.  When it is
    the empty object or the empty string, iteration yields nothing and
    [update] returns with the empty series stored.  In every other case
    (a number, a boolean, [null], a non-empty object or string)
    [update] raises [TypeError] and leaves the sensor as it was. *)
Theorem update_predictions_not_list
    (w : world) (self : Sensor) (end_ : datetime) (resp : response)
    (body api_data : pyval) :
  add_days (now w) 2 = Ok end_ ->
  requests_get w (build_request self (now w) end_) = Ok resp ->
  json resp = Ok body ->
  py_getitem body "predictions" = Ok api_data ->
  (forall l, api_data <> PyList l) ->
  (api_data = PyDict [] \/ api_data = PyStr "" ->
   self_after (update w self) = set_data self (Some []) /\
   returned (update w self) = Ok tt) /\
  (api_data <> PyDict [] -> api_data <> PyStr "" ->
   self_after (update w self) = self /\
   exists e, returned (update w self) = Raise e /\ exn_cls e = TypeError).
Proof.
  intros Hend Hget Hjson Hpred Hnl.
  pose proof (update_cases w self end_ Hend) as H. cbn zeta in H.
  unfold fetch in H. rewrite Hget in H. cbn [rbind] in H.
  rewrite Hjson in H. cbn [rbind] in H. rewrite Hpred in H. cbn [rbind] in H.
  destruct api_data as [| b | z | f | s | l | d]; cbn in H;
    try (split; [intros [[=] | [=]] | intros _ _; rewrite H; cbn; eauto]; fail).
  - destruct s as [|c s]; cbn in H; rewrite H; cbn.
    + split; [done | intros _ Hs; by destruct Hs].
    + split; [intros [[=] | [=]] | eauto].
  - by destruct (Hnl l).
  - destruct d as [|[k v] d]; cbn in H; rewrite H; cbn.
    + split; [done | intros Hd; by destruct Hd].
    + split; [intros [[=] | [=]] | eauto].
Qed.

Lemma update_predictions_not_list_witness :
  (self_after (update (answering noon (PyDict [("predictions", PyDict [])])) polled)
     = set_data polled (Some []) /\
   returned (update (answering noon (PyDict [("predictions", PyDict [])])) polled)
     = Ok tt) /\
  (self_after (update (answering noon (PyDict [("predictions", PyInt 0)])) polled)
     = polled /\
   exists e,
     returned (update (answering noon (PyDict [("predictions", PyInt 0)])) polled)
       = Raise e /\ exn_cls e = TypeError).
Proof.
  split.
  - apply (update_predictions_not_list
             (answering noon (PyDict [("predictions", PyDict [])])) polled
             (DateTime 2024 6 3 12 0 0)
             (mkResponse (Ok (PyDict [("predictions", PyDict [])])))
             (PyDict [("predictions", PyDict [])]) (PyDict []));
      [reflexivity | reflexivity | reflexivity | reflexivity | discriminate
      | left; reflexivity].
  - apply (update_predictions_not_list
             (answering noon (PyDict [("predictions", PyInt 0)])) polled
             (DateTime 2024 6 3 12 0 0)
             (mkResponse (Ok (PyDict [("predictions", PyInt 0)])))
             (PyDict [("predictions", PyInt 0)]) (PyInt 0));
      [reflexivity | reflexivity | reflexivity | reflexivity | discriminate
      | discriminate | discriminate].
Defined.

(** [end = begin + delta] stands before the [try]: when the clock shows
    a valid date, [update] makes no request exactly on 30 and 31
    December of the last year, and then it raises [OverflowError] with
    the sensor as it was and nothing logged.  On every other date it
    makes exactly one request. *)
Theorem update_window_overflow (w : world) (self : Sensor) :
  valid_datetime (now w) = true ->
  (get_calls (update w self) = [] <->
   year (now w) = MAXYEAR /\ month (now w) = 12 /\ 30 <= day (now w)) /\
  (get_calls (update w self) = [] ->
   self_after (update w self) = self /\
   logged (update w self) = [] /\
   exists e, returned (update w self) = Raise e /\ exn_cls e = OverflowError) /\
  (get_calls (update w self) <> [] -> length (get_calls (update w self)) = 1).
Proof.
  intros Hv. rewrite <- (add_days_2_raises_iff _ Hv).
  destruct (add_days (now w) 2) as [end_|e] eqn:Hend.
  - rewrite (get_calls_update w self end_ Hend). cbn.
    repeat split; try discriminate; done.
  - unfold update. rewrite Hend. cbn.
    apply add_days_raise_class in Hend.
    repeat split; try done. eauto.
Qed.

Lemma update_window_overflow_witness :
  (get_calls (update (answering last_days three_tides) polled) = [] <->
   year last_days = MAXYEAR /\ month last_days = 12 /\ 30 <= day last_days) /\
  (get_calls (update (answering last_days three_tides) polled) = [] ->
   self_after (update (answering last_days three_tides) polled) = polled /\
   logged (update (answering last_days three_tides) polled) = [] /\
   exists e, returned (update (answering last_days three_tides) polled) = Raise e /\
             exn_cls e = OverflowError) /\
  (get_calls (update (answering last_days three_tides) polled) <> [] ->
   length (get_calls (update (answering last_days three_tides) polled)) = 1).
Proof.
  apply (update_window_overflow (answering last_days three_tides) polled).
  vm_compute. reflexivity.
Defined.

Lemma config_set_data (s s' : Sensor) :
  config s = config s' -> s = set_data s' (data s).
Proof.
  destruct s, s'. unfold config, set_data. cbn. by intros [= -> -> -> ->].
Qed.

(** However many polls came before and whatever they left, a poll that
    returns leaves the data it would leave on the sensor as
    constructed: nothing of the earlier polls survives it. *)
Theorem polls_last (ws : list world) (w : world) (self : Sensor) :
  returned (update w self) = Ok tt ->
  data (polls (ws ++ [w]) self) = data (self_after (update w self)).
Proof.
  intros Hret. unfold polls. rewrite foldl_app. cbn [foldl].
  fold (polls ws self).
  rewrite (config_set_data _ _ (polls_config ws self)).
  destruct (update_set_data w self (data (polls ws self))) as (_ & _ & _ & Hs).
  by rewrite (Hs Hret).
Qed.

Lemma polls_last_witness :
  data (polls ([answering noon three_tides; answering noon error_body]
                 ++ [failing noon (Exn Timeout [])]) station)
  = data (self_after (update (failing noon (Exn Timeout [])) station)).
Proof.
  apply (polls_last [answering noon three_tides; answering noon error_body]
           (failing noon (Exn Timeout [])) station).
  reflexivity.
Defined.

(** ** Platform set-up *)

(** Membership in a list written out. *)
Ltac in_list :=
  repeat first [ apply list_elem_of_here | apply list_elem_of_further ].

Lemma vol_In_elem_of (container : list string) (v : string) :
  vol_In container v = true <-> v ∈ container.
Proof.
  unfold vol_In. rewrite existsb_exists. split.
  - intros (x & Hx & Heq). apply String.eqb_eq in Heq. subst.
    by apply list_elem_of_In.
  - intros H. exists v. split; [by apply list_elem_of_In | apply String.eqb_refl].
Qed.

Lemma PLATFORM_SCHEMA_accepts_inv (raw : raw_config) (config : platform_config) :
  PLATFORM_SCHEMA raw = Some config ->
  conf_time_zone config ∈ TIMEZONES /\
  (forall u, conf_unit_system config = Some u -> u ∈ UNIT_SYSTEMS).
Proof.
  unfold PLATFORM_SCHEMA.
  destruct (raw_station_id raw) as [sid|]; [|discriminate].
  destruct (vol_In TIMEZONES (default DEFAULT_TIMEZONE (raw_time_zone raw))) eqn:Htz;
    cbn [negb]; [|discriminate].
  apply vol_In_elem_of in Htz.
  destruct (raw_unit_system raw) as [u|].
  - destruct (vol_In UNIT_SYSTEMS u) eqn:Hu; [|discriminate].
    apply vol_In_elem_of in Hu.
    intros [= <-]. cbn. split; [done|]. by intros u' [= <-].
  - intros [= <-]. cbn. split; done.
Qed.

(** [setup_platform] never raises.  It registers exactly one sensor and
    asks for an update before it is added; the sensor has the
    configured name, station and time zone and no data yet, so its state
    is [None] and its attributes are empty.  Its unit system is the
    configured one when there is one, whatever the host uses, and
    otherwise ["metric"] on a metric host and ["english"] on any
    other. *)
Theorem setup_platform_registers (hass_units_metric : bool) (config : platform_config) :
  exists s : Sensor,
    setup_platform hass_units_metric config = Ok (mkAddEntities [s] true) /\
    name s = conf_name config /\
    _station_id s = conf_station_id config /\
    _timezone s = conf_time_zone config /\
    _unit_system s =
      match conf_unit_system config with
      | Some u => u
      | None => if hass_units_metric then "metric" else "english"
      end /\
    native_value s = Ok None /\
    extra_state_attributes s = Ok ∅.
Proof.
  unfold setup_platform.
  destruct (conf_unit_system config) as [u|]; [|destruct hass_units_metric];
    cbn; eexists; repeat split.
Qed.

(** What the schema rejects: a missing station id, a time zone outside
    [TIMEZONES], a unit system outside [UNIT_SYSTEMS]; nothing else. *)
Theorem PLATFORM_SCHEMA_rejects (raw : raw_config) :
  PLATFORM_SCHEMA raw = None <->
  raw_station_id raw = None \/
  (exists tz, raw_time_zone raw = Some tz /\ tz ∉ TIMEZONES) \/
  (exists u, raw_unit_system raw = Some u /\ u ∉ UNIT_SYSTEMS).
Proof.
  unfold PLATFORM_SCHEMA.
  destruct (raw_station_id raw) as [sid|]; [|by split; [left|]].
  destruct (vol_In TIMEZONES (default DEFAULT_TIMEZONE (raw_time_zone raw))) eqn:Htz;
    cbn [negb].
  - assert (Htz' : forall tz, raw_time_zone raw = Some tz -> tz ∈ TIMEZONES).
    { intros tz E. rewrite E in Htz. by apply vol_In_elem_of. }
    destruct (raw_unit_system raw) as [u|].
    + destruct (vol_In UNIT_SYSTEMS u) eqn:Hu.
      * apply vol_In_elem_of in Hu. split; [intros [=]|].
        intros [[=] | [(tz & E & Hn) | (u' & [= <-] & Hn)]]; [|done].
        by destruct (Hn (Htz' tz E)).
      * split; [intros _|done]. right. right. exists u. split; [done|].
        rewrite <- vol_In_elem_of. congruence.
    + split; [intros [=]|].
      intros [[=] | [(tz & E & Hn) | (u' & [=] & _)]].
      by destruct (Hn (Htz' tz E)).
  - split; [intros _|done]. right. left.
    destruct (raw_time_zone raw) as [tz|]; [|vm_compute in Htz; discriminate].
    change (vol_In TIMEZONES tz = false) in Htz.
    exists tz. split; [done|]. rewrite <- vol_In_elem_of. congruence.
Qed.

(** What the schema delivers: the station id as written, the name and
    the time zone as written or else their defaults ["NOAA Tides"] and
    ["lst_ldt"], the unit system as written; the time zone is one of
    [TIMEZONES] and the unit system, when there is one, one of
    [UNIT_SYSTEMS]. *)
Theorem PLATFORM_SCHEMA_accepts (raw : raw_config) (config : platform_config) :
  PLATFORM_SCHEMA raw = Some config ->
  raw_station_id raw = Some (conf_station_id config) /\
  conf_name config = default "NOAA Tides" (raw_name raw) /\
  conf_time_zone config = default "lst_ldt" (raw_time_zone raw) /\
  conf_unit_system config = raw_unit_system raw /\
  conf_time_zone config ∈ TIMEZONES /\
  (forall u, conf_unit_system config = Some u -> u ∈ UNIT_SYSTEMS).
Proof.
  unfold PLATFORM_SCHEMA.
  destruct (raw_station_id raw) as [sid|]; [|discriminate].
  destruct (vol_In TIMEZONES (default DEFAULT_TIMEZONE (raw_time_zone raw))) eqn:Htz;
    cbn [negb]; [|discriminate].
  apply vol_In_elem_of in Htz.
  destruct (raw_unit_system raw) as [u|].
  - destruct (vol_In UNIT_SYSTEMS u) eqn:Hu; [|discriminate].
    apply vol_In_elem_of in Hu.
    intros [= <-]. cbn. repeat split; try done. by intros u' [= <-].
  - intros [= <-]. cbn. repeat split; done.
Qed.

Lemma PLATFORM_SCHEMA_accepts_witness :
  raw_station_id station_only = Some "8721164" /\
  "NOAA Tides" = default "NOAA Tides" (raw_name station_only) /\
  "lst_ldt" = default "lst_ldt" (raw_time_zone station_only) /\
  None = raw_unit_system station_only /\
  "lst_ldt" ∈ TIMEZONES /\
  (forall u, (None : option string) = Some u -> u ∈ UNIT_SYSTEMS).
Proof.
  apply (PLATFORM_SCHEMA_accepts station_only
           (mkConfig "8721164" "NOAA Tides" "lst_ldt" None)).
  reflexivity.
Defined.

(** From the written configuration to the first request: when the
    schema accepts the configuration and the clock shows a valid date
    before the last year, the sensor that [setup_platform] registers
    sends, on its first [update], exactly one request; its [station] is
    the configured station, its [time_zone] one of [TIMEZONES] and its
    [units] one of [UNIT_SYSTEMS]. *)
Theorem setup_then_update
    (raw : raw_config) (config : platform_config)
    (hass_units_metric : bool) (w : world) :
  PLATFORM_SCHEMA raw = Some config ->
  valid_datetime (now w) = true ->
  year (now w) < MAXYEAR ->
  exists (s : Sensor) (req : request) (tz u : string),
    setup_platform hass_units_metric config = Ok (mkAddEntities [s] true) /\
    get_calls (update w s) = [req] /\
    url req = DATA_GETTER_URL /\
    timeout req = 10 /\
    ("station", conf_station_id config) ∈ params req /\
    ("time_zone", tz) ∈ params req /\ tz ∈ TIMEZONES /\
    ("units", u) ∈ params req /\ u ∈ UNIT_SYSTEMS.
Proof.
  intros Hs Hv Hy.
  destruct (PLATFORM_SCHEMA_accepts_inv raw config Hs) as (Htz & Hu).
  destruct (add_days_2_total (now w) Hy) as [end_ Hend].
  set (u := match conf_unit_system config with
            | Some u => u
            | None => if hass_units_metric then "metric" else "english"
            end).
  set (s := init (conf_name config) (conf_station_id config)
              (conf_time_zone config) u).
  exists s, (build_request s (now w) end_), (conf_time_zone config), u.
  split.
  { unfold setup_platform, s, u.
    destruct (conf_unit_system config); [|destruct hass_units_metric]; reflexivity. }
  split; [by apply get_calls_update|].
  split; [reflexivity|]. split; [reflexivity|].
  cbn [build_request params build_params s init _station_id _timezone _unit_system].
  split; [in_list|]. split; [in_list|]. split; [exact Htz|].
  split; [in_list|].
  unfold u. destruct (conf_unit_system config) as [u'|]; [by apply Hu|].
  unfold UNIT_SYSTEMS. destruct hass_units_metric; in_list.
Qed.

Lemma setup_then_update_witness :
  exists (s : Sensor) (req : request) (tz u : string),
    setup_platform true (mkConfig "8721164" "NOAA Tides" "lst_ldt" None)
      = Ok (mkAddEntities [s] true) /\
    get_calls (update (answering noon three_tides) s) = [req] /\
    url req = DATA_GETTER_URL /\
    timeout req = 10 /\
    ("station", "8721164") ∈ params req /\
    ("time_zone", tz) ∈ params req /\ tz ∈ TIMEZONES /\
    ("units", u) ∈ params req /\ u ∈ UNIT_SYSTEMS.
Proof.
  apply (setup_then_update station_only
           (mkConfig "8721164" "NOAA Tides" "lst_ldt" None) true
           (answering noon three_tides));
    [reflexivity | reflexivity | vm_compute; lia].
Defined.
